(** * webpack-bundle-analyzer: the report viewer (src/viewer.js)

    A shallow embedding of [viewer.js]: the chart-data pipeline
    ([getChartData]), the entrypoint extractor ([getEntrypoints]), the
    default-size resolution ([resolveDefaultSizes]), the two one-shot
    report generators ([generateReport], [generateJSONReport]) and the
    report server ([startServer]) with its live update
    ([updateChartData]).

    The functions of the module act on a [World]: the events they cause,
    in order, the files, and the state of the one running server.  A
    function that can throw returns an [Outcome]; for an [async] function
    [Throw] is the rejection of its promise, and the code after an [await]
    runs after the awaited effect.  What the module imports, the analyzer
    first of all, is a parameter ([Collaborators]); the analyzer returns
    a value or throws an [Error] or any other value.  The logger of a call,
    the one given in [opts] or a new [Logger], is the log of the world. *)

From Stdlib Require Import String Ascii List ZArith Bool Lia SpecFloat.
From stdpp Require Import base strings gmap list.

Import ListNotations.
Local Open Scope string_scope.
Local Open Scope list_scope.
#[local] Set Warnings "-register-all".

(** ** JavaScript values *)

Module JS.

(** The values that flow through [viewer.js].  A number is an IEEE 754
    floating-point datum: a signed zero, a signed infinity, NaN, or a
    signed mantissa with an exponent.  An object is the list of its own
    enumerable string-keyed properties in the order in which
    [Object.values] enumerates them. *)
Inductive Value : Type :=
| Undefined
| Null
| Bool (b : bool)
| Num (x : spec_float)
| Str (s : string)
| Arr (items : list Value)
| Obj (props : list (string * Value)).

(** What a [throw] carries: an [Error] instance with its [name],
    [message] and [stack]. *)
Record Error : Type := mkError {
  err_name : string;
  err_message : string;
  err_stack : string
}.

Definition TypeError (message : string) : Error :=
  {| err_name := "TypeError"; err_message := message;
     err_stack := "TypeError: " +:+ message |}.

(** [Error.prototype.toString], which a template literal applies to an
    interpolated error. *)
Definition toString (e : Error) : string :=
  if String.eqb (err_name e) "" then err_message e
  else if String.eqb (err_message e) "" then err_name e
  else err_name e +:+ ": " +:+ err_message e.

(** What a [throw] of code outside the module carries: an [Error]
    instance or any other value. *)
Inductive Thrown : Type :=
| ThrownError (e : Error)
| ThrownValue (v : Value).

(** ToBoolean: [undefined], [null], [false], [0], [-0], [NaN] and the
    empty string are falsy, every other value is truthy. *)
Definition truthy (v : Value) : bool :=
  match v with
  | Undefined | Null => false
  | Bool b => b
  | Num (S754_zero _) | Num S754_nan => false
  | Num (S754_infinity _) | Num (S754_finite _ _ _) => true
  | Str s => negb (String.eqb s "")
  | Arr _ | Obj _ => true
  end.

(** The number of an integer. *)
Definition int (z : Z) : Value :=
  match z with
  | Z0 => Num (S754_zero false)
  | Zpos m => Num (S754_finite false m 0)
  | Zneg m => Num (S754_finite true m 0)
  end.

(** [Array.isArray]. *)
Definition isArray (v : Value) : bool :=
  match v with Arr _ => true | _ => false end.

(** [v === null || v === undefined]. *)
Definition nullish (v : Value) : bool :=
  match v with Undefined | Null => true | _ => false end.

Fixpoint assoc (k : string) (props : list (string * Value)) : option Value :=
  match props with
  | [] => None
  | (k', v) :: rest => if String.eqb k k' then Some v else assoc k rest
  end.

(** The value of the property [k] of [v], for a [v] that is neither [null]
    nor [undefined] and a key [k] that names no built-in property of a
    primitive wrapper, of an array or of [Object.prototype] (the source
    reads [entrypoints], [name] and [stack]): an own property of an
    object, or [undefined]. *)
Definition field (v : Value) (k : string) : Value :=
  match v with
  | Obj props => match assoc k props with Some x => x | None => Undefined end
  | _ => Undefined
  end.

(** The property read [v.k].  Reading a property of [null] or
    [undefined] throws. *)
Definition get (v : Value) (k : string) : Error + Value :=
  match v with
  | Undefined =>
      inl (TypeError ("Cannot read properties of undefined (reading '" +:+ k +:+ "')"))
  | Null =>
      inl (TypeError ("Cannot read properties of null (reading '" +:+ k +:+ "')"))
  | _ => inr (field v k)
  end.

(** [err.stack], for what a [catch] has caught. *)
Definition stack (err : Thrown) : Error + Value :=
  match err with
  | ThrownError e => inr (Str (err_stack e))
  | ThrownValue v => get v "stack"
  end.

Fixpoint chars (s : string) : list Value :=
  match s with
  | EmptyString => []
  | String c rest => Str (String c EmptyString) :: chars rest
  end.

(** [Object.values(v)] for a value that is neither [null] nor
    [undefined]: the property values of an object, the elements of an
    array, the characters of a string, nothing for a number or a
    boolean. *)
Definition values (v : Value) : Error + list Value :=
  match v with
  | Undefined | Null =>
      inl (TypeError "Cannot convert undefined or null to object")
  | Obj props => inr (map snd props)
  | Arr items => inr items
  | Str s => inr (chars s)
  | Bool _ | Num _ => inr []
  end.

(** [Array.prototype.includes] on an array literal of strings: the
    comparison is SameValueZero, so only a string can be found. *)
Definition includes (haystack : list string) (v : Value) : bool :=
  match v with
  | Str s => existsb (String.eqb s) haystack
  | _ => false
  end.

(** A destructuring default [{k = d}]: it applies to [undefined] only. *)
Definition default (d v : Value) : Value :=
  match v with Undefined => d | _ => v end.

End JS.

(** ** Node's [path] module, POSIX flavour *)

Module Path.

Definition is_slash (c : ascii) : bool := Ascii.eqb c "/".

Definition isAbsolute (p : string) : bool :=
  match p with
  | String c _ => is_slash c
  | EmptyString => false
  end.

Fixpoint endsWithSlash (p : string) : bool :=
  match p with
  | EmptyString => false
  | String c EmptyString => is_slash c
  | String _ rest => endsWithSlash rest
  end.

(** The segments between the slashes of [p]; there is always at least one. *)
Fixpoint segments (p : string) : list string :=
  match p with
  | EmptyString => [EmptyString]
  | String c rest =>
      if is_slash c then EmptyString :: segments rest
      else
        match segments rest with
        | seg :: segs => String c seg :: segs
        | [] => [String c EmptyString]
        end
  end.

(** One segment of [normalizeString]; [kept] is the list of the segments
    kept so far, the last one first.  Empty segments and [.] are dropped;
    [..] removes the last kept segment, unless there is none or it is
    itself [..], in which case it is kept only when [allowAboveRoot]. *)
Definition normalizeStep (allowAboveRoot : bool) (kept : list string) (seg : string)
  : list string :=
  if String.eqb seg "" || String.eqb seg "." then kept
  else if String.eqb seg ".." then
    match kept with
    | last :: before =>
        if String.eqb last ".." then
          (if allowAboveRoot then seg :: kept else kept)
        else before
    | [] => if allowAboveRoot then [seg] else []
    end
  else seg :: kept.

Definition normalizeString (p : string) (allowAboveRoot : bool) : string :=
  String.concat "/" (rev (fold_left (normalizeStep allowAboveRoot) (segments p) [])).

(** [path.normalize]. *)
Definition normalize (p : string) : string :=
  if String.eqb p "" then "."
  else
    let absolute := isAbsolute p in
    let trailingSeparator := endsWithSlash p in
    let q := normalizeString p (negb absolute) in
    if String.eqb q "" then
      (if absolute then "/" else if trailingSeparator then "./" else ".")
    else
      let q := if trailingSeparator then q +:+ "/" else q in
      if absolute then "/" +:+ q else q.

(** [path.join]: the non-empty arguments joined by a slash, normalized. *)
Definition join (paths : list string) : string :=
  match List.filter (fun p => negb (String.eqb p "")) paths with
  | [] => "."
  | joined => normalize (String.concat "/" joined)
  end.

(** The loop of [path.resolve]: the arguments from the last to the first,
    then the working directory, until an absolute one has been prepended. *)
Fixpoint resolveLoop (pathsFromLast : list string) (resolvedPath : string)
  : string * bool :=
  match pathsFromLast with
  | [] => (resolvedPath, false)
  | p :: earlier =>
      if String.eqb p "" then resolveLoop earlier resolvedPath
      else if isAbsolute p then (p +:+ "/" +:+ resolvedPath, true)
      else resolveLoop earlier (p +:+ "/" +:+ resolvedPath)
  end.

(** [path.resolve], in a process whose working directory is [cwd]. *)
Definition resolve (cwd : string) (paths : list string) : string :=
  let '(resolvedPath, resolvedAbsolute) := resolveLoop (rev paths ++ [cwd]) "" in
  let resolvedPath := normalizeString resolvedPath (negb resolvedAbsolute) in
  if resolvedAbsolute then "/" +:+ resolvedPath
  else if String.eqb resolvedPath "" then "." else resolvedPath.

Fixpoint dropSlashes (cs : list ascii) : list ascii :=
  match cs with
  | c :: rest => if is_slash c then dropSlashes rest else cs
  | [] => []
  end.

Fixpoint dropSegment (cs : list ascii) : list ascii :=
  match cs with
  | c :: rest => if is_slash c then cs else dropSegment rest
  | [] => []
  end.

(** [path.dirname].  The scan runs from the last character down to the
    second one: trailing slashes are skipped, then the last segment, and
    the path is cut at the slash found there. *)
Definition dirname (p : string) : string :=
  match p with
  | EmptyString => "."
  | String first rest =>
      let hasRoot := is_slash first in
      match dropSegment (dropSlashes (rev (list_ascii_of_string rest))) with
      | [] => if hasRoot then "/" else "."
      | _slash :: before =>
          if hasRoot && Nat.eqb (length before) 0 then "//"
          else String first (string_of_list_ascii (rev before))
      end
  end.

End Path.

(** ** Pure helpers of [viewer.js] *)

(** [resolveDefaultSizes], lines 24-27. *)
Definition resolveDefaultSizes (defaultSizes compressionAlgorithm : JS.Value) : JS.Value :=
  if JS.includes ["gzip"; "brotli"] defaultSizes then compressionAlgorithm
  else defaultSizes.

(** The callback of [map] in [getEntrypoints]: [entrypoint => entrypoint.name],
    applied from left to right; the first throw ends the loop. *)
Fixpoint map_name (entrypoints : list JS.Value) : JS.Error + list JS.Value :=
  match entrypoints with
  | [] => inr []
  | entrypoint :: rest =>
      match JS.get entrypoint "name" with
      | inl e => inl e
      | inr name =>
          match map_name rest with
          | inl e => inl e
          | inr names => inr (name :: names)
          end
      end
  end.

(** [getEntrypoints], lines 220-225.  The result is the array of names, or
    the [TypeError] of a property read. *)
Definition getEntrypoints (bundleStats : JS.Value) : JS.Error + list JS.Value :=
  if JS.nullish bundleStats then inr []
  else
    match JS.get bundleStats "entrypoints" with
    | inl e => inl e
    | inr entrypoints =>
        if negb (JS.truthy entrypoints) then inr []
        else
          match JS.values entrypoints with
          | inl e => inl e
          | inr records => map_name records
          end
    end.

(** [resolveTitle], lines 16-22: the title is a plain value or a
    zero-argument function producing one. *)
Inductive ReportTitle : Type :=
| TitleValue (v : JS.Value)
| TitleFunction (produce : unit -> JS.Value).

Definition resolveTitle (reportTitle : ReportTitle) : JS.Value :=
  match reportTitle with
  | TitleFunction produce => produce tt
  | TitleValue v => v
  end.

(** ** Effects: the world outside the module *)

Inductive Level : Type := info | error | debug.

Module WebSocket.

Inductive ReadyState : Type := CONNECTING | OPEN | CLOSING | CLOSED.

Definition isOpen (s : ReadyState) : bool :=
  match s with OPEN => true | _ => false end.

(** A member of [wss.clients]. *)
Record Client : Type := mkClient {
  id : nat;
  readyState : ReadyState
}.

End WebSocket.

(** What the module does to its environment, in the order in which it
    does it.  A call of the logger with a string is [Logged], with any
    other value [LoggedValue]. *)
Inductive Event : Type :=
| Logged (level : Level) (message : string)
| MadeDir (dir : string) (recursive : bool)
| WroteFile (file data : string)
| OpenedBrowser (url : string)
| CreatedStatic (root : string) (dev : bool)
| CreatedServer
| Listening (port : Z) (host : string)
| CreatedWebSocketServer
| Assigned (chartData : JS.Value)
| Sent (client : nat) (frame : string)
| LoggedValue (level : Level) (value : JS.Value).

(** The state the module acts on: the events so far (oldest first), the
    contents of the files by absolute path, and, for the running server,
    its [chartData] binding and the clients of its push channel in
    the iteration order of [wss.clients]. *)
Record World : Type := mkWorld {
  trace : list Event;
  files : gmap string string;
  currentChartData : JS.Value;
  clients : list WebSocket.Client
}.

(** Requests to the operating system that it may refuse. *)
Inductive SysCall : Type :=
| SysMkdir (dir : string)
| SysWriteFile (file : string)
| SysListen (port : Z) (host : string).

(** The options handed to the analyzer; their [logger] is the log of the
    world. *)
Record AnalyzerOpts : Type := mkAnalyzerOpts {
  ao_excludeAssets : JS.Value;
  ao_compressionAlgorithm : JS.Value
}.

(** The argument of [renderViewer]. *)
Record ViewerOptions : Type := mkViewerOptions {
  vo_mode : string;
  vo_title : JS.Value;
  vo_chartData : JS.Value;
  vo_entrypoints : list JS.Value;
  vo_defaultSizes : JS.Value;
  vo_compressionAlgorithm : JS.Value;
  vo_enableWebSocket : bool
}.

(** The argument of [analyzerUrl]. *)
Record BindInfo : Type := mkBindInfo {
  listenPort : Z;
  listenHost : string;
  boundAddress : JS.Value
}.

(** The collaborators [viewer.js] imports or finds in its runtime:
    [analyzer.getViewerData], which returns a value or throws one,
    [ToString], the conversion that a template literal applies to a
    number, an array or an object that is not an [Error] instance, and
    that may itself throw,
    [renderViewer], [JSON.stringify], [bold], [process.cwd()],
    [projectRoot], [server.address()], and the operating system, which
    refuses a request by naming the error it raises. *)
Class Collaborators : Type := {
  getViewerData : JS.Value -> option string -> AnalyzerOpts -> JS.Thrown + JS.Value;
  ToString : JS.Value -> JS.Error + string;
  renderViewer : ViewerOptions -> string;
  JSON_stringify : JS.Value -> string;
  bold : string -> string;
  process_cwd : string;
  projectRoot : string;
  server_address : Z -> string -> JS.Value;
  refuses : SysCall -> option JS.Error
}.

(** A computation returns, or throws to its caller, or ends in an
    exception that no caller can catch: one thrown out of an event
    callback, which leaves the promise of the call unsettled.  In each
    case it changes the world. *)
Inductive Outcome (A : Type) : Type :=
| Return (a : A)
| Throw (e : JS.Error)
| Uncaught (e : JS.Error).
Arguments Return {A} a.
Arguments Throw {A} e.
Arguments Uncaught {A} e.

Definition M (A : Type) : Type := World -> Outcome A * World.

Definition ret {A : Type} (a : A) : M A := fun w => (Return a, w).

Definition bind {A B : Type} (m : M A) (k : A -> M B) : M B := fun w =>
  match m w with
  | (Return a, w') => k a w'
  | (Throw e, w') => (Throw e, w')
  | (Uncaught e, w') => (Uncaught e, w')
  end.

Declare Scope M_scope.
Notation "x ← y ; z" := (bind y (fun x => z))
  (at level 20, y at level 100, z at level 200, only parsing) : M_scope.
Notation "x ;; z" := (bind x (fun _ => z))
  (at level 100, z at level 200, only parsing, right associativity) : M_scope.
Local Open Scope M_scope.

Definition throw {A : Type} (e : JS.Error) : M A := fun w => (Throw e, w).

Definition uncaught {A : Type} (e : JS.Error) : M A := fun w => (Uncaught e, w).

(** A pure step that may throw. *)
Definition lift {A : Type} (r : JS.Error + A) : M A :=
  match r with
  | inl e => throw e
  | inr a => ret a
  end.

Definition emit (e : Event) : M unit := fun w =>
  (Return tt,
   {| trace := trace w ++ [e]; files := files w;
      currentChartData := currentChartData w; clients := clients w |}).

(** [Array.prototype.forEach] and [Set.prototype.forEach]. *)
Fixpoint forEach {A : Type} (items : list A) (callback : A -> M unit) : M unit :=
  match items with
  | [] => ret tt
  | item :: rest => callback item ;; forEach rest callback
  end.

(** The line feed of a template literal. *)
Definition LF : string := String "010" EmptyString.

(** The double quote. *)
Definition DQ : string := String "034" EmptyString.

Module Opts.

(** The [opts] argument of the three entry points; [None] and
    [JS.Undefined] stand for a property that is absent or [undefined], for
    [bundleDir] also for [null]. *)
Record t : Type := mk {
  port : option Z;
  host : option string;
  openBrowser : option bool;
  bundleDir : option string;
  defaultSizes : JS.Value;
  compressionAlgorithm : JS.Value;
  excludeAssets : JS.Value;
  reportTitle : ReportTitle;
  analyzerUrl : option (BindInfo -> string);
  reportFilename : option string
}.

(** [{}]. *)
Definition empty : t :=
  {| port := None; host := None; openBrowser := None; bundleDir := None;
     defaultSizes := JS.Undefined; compressionAlgorithm := JS.Undefined;
     excludeAssets := JS.Undefined; reportTitle := TitleValue JS.Undefined;
     analyzerUrl := None; reportFilename := None |}.

End Opts.

(** What [updateChartData] and the request handler capture from the
    activation of [startServer] that created them. *)
Record Server : Type := mkServer {
  sv_analyzerOpts : AnalyzerOpts;
  sv_bundleDir : option string;
  sv_entrypoints : list JS.Value;
  sv_reportTitle : ReportTitle;
  sv_defaultSizes : JS.Value;
  sv_compressionAlgorithm : JS.Value
}.

Inductive Response : Type :=
| Page (status : Z) (contentType body : string)
| Delegated.

(** ** The effectful functions of [viewer.js] *)

Section Viewer.

Context {collaborators : Collaborators}.

Definition logger (level : Level) (message : string) : M unit :=
  emit (Logged level message).

(** A call of the logger with a value that need not be a string. *)
Definition loggerValue (level : Level) (value : JS.Value) : M unit :=
  match value with
  | JS.Str message => logger level message
  | _ => emit (LoggedValue level value)
  end.

(** The conversion of a caught value in a template literal. *)
Definition interpolate (err : JS.Thrown) : JS.Error + string :=
  match err with
  | JS.ThrownError e => inr (JS.toString e)
  | JS.ThrownValue JS.Undefined => inr "undefined"
  | JS.ThrownValue JS.Null => inr "null"
  | JS.ThrownValue (JS.Bool b) => inr (if b then "true" else "false")
  | JS.ThrownValue (JS.Str s) => inr s
  | JS.ThrownValue v => ToString v
  end.

Definition syscall (c : SysCall) : M unit :=
  match refuses c with
  | Some e => throw e
  | None => ret tt
  end.

(** [fs.mkdirSync(dir, {recursive: true})] and its promise twin. *)
Definition fs_mkdir (dir : string) : M unit :=
  syscall (SysMkdir dir) ;; emit (MadeDir dir true).

(** [fs.writeFileSync(file, data)] and its promise twin: the file is
    created or truncated; a relative [file] is taken from the working
    directory of the process. *)
Definition fs_writeFile (file data : string) : M unit :=
  syscall (SysWriteFile file) ;;
  fun w =>
    (Return tt,
     {| trace := trace w ++ [WroteFile file data];
        files := <[Path.resolve process_cwd [file] := data]> (files w);
        currentChartData := currentChartData w; clients := clients w |}).

(** [open(url, logger)] of [./utils]. *)
Definition open (url : string) : M unit := emit (OpenedBrowser url).

(** [client.send(frame)]. *)
Definition send (client : WebSocket.Client) (frame : string) : M unit :=
  emit (Sent (WebSocket.id client) frame).

(** The assignment [chartData = newChartData] of line 125. *)
Definition assignChartData (v : JS.Value) : M unit := fun w =>
  (Return tt,
   {| trace := trace w ++ [Assigned v]; files := files w;
      currentChartData := v; clients := clients w |}).

(** The binding [let chartData = ...] of line 54, from the moment the
    closures that read it exist. *)
Definition bindChartData (v : JS.Value) : M unit := fun w =>
  (Return tt,
   {| trace := trace w; files := files w;
      currentChartData := v; clients := clients w |}).

Definition readChartData : M JS.Value := fun w => (Return (currentChartData w), w).

Definition wss_clients : M (list WebSocket.Client) := fun w => (Return (clients w), w).

(** [getChartData], lines 195-218. *)
Definition getChartData (analyzerOpts : AnalyzerOpts)
    (bundleStats : JS.Value) (bundleDir : option string) : M JS.Value :=
  chartData ←
    match getViewerData bundleStats bundleDir analyzerOpts with
    | inr viewerData => ret viewerData
    | inl err =>
        text ← lift (interpolate err);
        logger error ("Couldn't analyze webpack bundle:" +:+ LF +:+ text) ;;
        stack ← lift (JS.stack err);
        loggerValue debug stack ;;
        ret JS.Null
    end;
  if JS.truthy chartData && negb (JS.isArray chartData) then
    logger error "Couldn't find any javascript bundles in provided stats file" ;;
    ret JS.Null
  else ret chartData.

(** The message of [updateChartData]. *)
Definition chartDataUpdated (newChartData : JS.Value) : string :=
  JSON_stringify
    (JS.Obj [("event", JS.Str "chartDataUpdated"); ("data", newChartData)]).

(** [updateChartData], lines 120-135. *)
Definition updateChartData (server : Server) (bundleStats : JS.Value) : M unit :=
  newChartData ← getChartData (sv_analyzerOpts server) bundleStats (sv_bundleDir server);
  if negb (JS.truthy newChartData) then ret tt
  else
    assignChartData newChartData ;;
    connected ← wss_clients;
    forEach connected (fun client =>
      if WebSocket.isOpen (WebSocket.readyState client) then
        send client (chartDataUpdated newChartData)
      else ret tt).

(** The request handler given to [http.createServer], lines 64-80. *)
Definition handleRequest (server : Server) (method url : string) : M Response :=
  if String.eqb method "GET" && String.eqb url "/" then
    chartData ← readChartData;
    let html := renderViewer
      {| vo_mode := "server";
         vo_title := resolveTitle (sv_reportTitle server);
         vo_chartData := chartData;
         vo_entrypoints := sv_entrypoints server;
         vo_defaultSizes :=
           resolveDefaultSizes (sv_defaultSizes server) (sv_compressionAlgorithm server);
         vo_compressionAlgorithm := sv_compressionAlgorithm server;
         vo_enableWebSocket := true |} in
    ret (Page 200 "text/html" html)
  else ret Delegated.

(** The handler of a socket error, lines 106-111; [errno] is [None] when
    the error carries no system error number. *)
Definition onSocketError (errno : option Z) (message : string) : M unit :=
  match errno with
  | Some n => if Z.eqb n 0 then logger info message else ret tt
  | None => logger info message
  end.

(** The object [{logger, excludeAssets, compressionAlgorithm}] that the
    three entry points build from [opts] and hand to [getChartData]. *)
Definition analyzerOptsOf (o : Opts.t) : AnalyzerOpts :=
  {| ao_excludeAssets := JS.default JS.Null (Opts.excludeAssets o);
     ao_compressionAlgorithm := Opts.compressionAlgorithm o |}.

(** [server.listen(port, host, callback)], awaited through the promise
    of lines 82-101.  A refused bind is an [error] event of the server
    that nothing listens to: it is thrown where no caller catches it, and
    the promise stays pending. *)
Definition listen (port : Z) (host : string) : M unit :=
  match refuses (SysListen port host) with
  | Some e => uncaught e
  | None => emit (Listening port host)
  end.

(** [startServer], lines 38-118: [None] is the bare [return] of line 57.
    The callback of [listen] runs the lines 86-99 after it has resolved
    the promise; a call of an [analyzerUrl] that is not there throws out
    of that callback. *)
Definition startServer (bundleStats : JS.Value) (opts : option Opts.t)
  : M (option Server) :=
  let o := default Opts.empty opts in
  let port := default 8888%Z (Opts.port o) in
  let host := default "127.0.0.1" (Opts.host o) in
  let openBrowser := default true (Opts.openBrowser o) in
  let bundleDir := Opts.bundleDir o in
  let defaultSizes := JS.default (JS.Str "parsed") (Opts.defaultSizes o) in
  let compressionAlgorithm := Opts.compressionAlgorithm o in
  let analyzerOpts := analyzerOptsOf o in
  chartData ← getChartData analyzerOpts bundleStats bundleDir;
  entrypoints ← lift (getEntrypoints bundleStats);
  if negb (JS.truthy chartData) then ret None
  else
    bindChartData chartData ;;
    emit (CreatedStatic (projectRoot +:+ "/public") true) ;;
    emit CreatedServer ;;
    listen port host ;;
    url ←
      match Opts.analyzerUrl o with
      | Some analyzerUrl =>
          ret (analyzerUrl
                  {| listenPort := port; listenHost := host;
                     boundAddress := server_address port host |})
      | None => uncaught (JS.TypeError "analyzerUrl is not a function")
      end;
    logger info
      (bold "Webpack Bundle Analyzer" +:+ " is started at " +:+ bold url +:+ LF +:+
       "Use " +:+ bold "Ctrl+C" +:+ " to close it") ;;
    (if openBrowser then open url else ret tt) ;;
    emit CreatedWebSocketServer ;;
    ret (Some {| sv_analyzerOpts := analyzerOpts;
                  sv_bundleDir := bundleDir;
                  sv_entrypoints := entrypoints;
                  sv_reportTitle := Opts.reportTitle o;
                  sv_defaultSizes := defaultSizes;
                  sv_compressionAlgorithm := compressionAlgorithm |}).

(** A path argument that is not a string makes [path.resolve] and
    [path.dirname] throw. *)
Definition validateString (name : string) (p : option string) : M string :=
  match p with
  | Some s => ret s
  | None =>
      throw (JS.TypeError
        ("The " +:+ DQ +:+ name +:+ DQ +:+
         " argument must be of type string. Received undefined"))
  end.

(** [bundleDir || process.cwd()]. *)
Definition bundleDir_or_cwd (bundleDir : option string) : string :=
  match bundleDir with
  | Some dir => if String.eqb dir "" then process_cwd else dir
  | None => process_cwd
  end.

(** [generateReport], lines 138-174. *)
Definition generateReport (bundleStats : JS.Value) (opts : option Opts.t) : M unit :=
  let o := default Opts.empty opts in
  let openBrowser := default true (Opts.openBrowser o) in
  let reportFilename := Opts.reportFilename o in
  let reportTitle := Opts.reportTitle o in
  let bundleDir := Opts.bundleDir o in
  let defaultSizes := JS.default (JS.Str "parsed") (Opts.defaultSizes o) in
  let compressionAlgorithm := Opts.compressionAlgorithm o in
  chartData ← getChartData (analyzerOptsOf o) bundleStats bundleDir;
  entrypoints ← lift (getEntrypoints bundleStats);
  if negb (JS.truthy chartData) then ret tt
  else
    let reportHtml := renderViewer
      {| vo_mode := "static";
         vo_title := resolveTitle reportTitle;
         vo_chartData := chartData;
         vo_entrypoints := entrypoints;
         vo_defaultSizes := resolveDefaultSizes defaultSizes compressionAlgorithm;
         vo_compressionAlgorithm := compressionAlgorithm;
         vo_enableWebSocket := false |} in
    name ← validateString "paths[1]" reportFilename;
    let reportFilepath := Path.resolve process_cwd [bundleDir_or_cwd bundleDir; name] in
    fs_mkdir (Path.dirname reportFilepath) ;;
    fs_writeFile reportFilepath reportHtml ;;
    logger info
      (bold "Webpack Bundle Analyzer" +:+ " saved report to " +:+ bold reportFilepath) ;;
    if openBrowser then open ("file://" +:+ reportFilepath) else ret tt.

(** [generateJSONReport], lines 176-193. *)
Definition generateJSONReport (bundleStats : JS.Value) (opts : option Opts.t) : M unit :=
  let o := default Opts.empty opts in
  let reportFilename := Opts.reportFilename o in
  let bundleDir := Opts.bundleDir o in
  chartData ← getChartData (analyzerOptsOf o) bundleStats bundleDir;
  if negb (JS.truthy chartData) then ret tt
  else
    name ← validateString "path" reportFilename;
    fs_mkdir (Path.dirname name) ;;
    fs_writeFile name (JSON_stringify chartData) ;;
    logger info
      (bold "Webpack Bundle Analyzer" +:+ " saved JSON report to " +:+ bold name).

End Viewer.

(** ** Observing a run *)

(** [w] after the events [es]. *)
Definition after (w : World) (es : list Event) : World :=
  {| trace := trace w ++ es; files := files w;
     currentChartData := currentChartData w; clients := clients w |}.

Definition isLogged (e : Event) : bool :=
  match e with Logged _ _ | LoggedValue _ _ => true | _ => false end.

(** The level of a log entry. *)
Definition logLevel (e : Event) : option Level :=
  match e with
  | Logged level _ | LoggedValue level _ => Some level
  | _ => None
  end.

(** The messages logged at [level] among [es]. *)
Fixpoint loggedAt (level : Level) (es : list Event) : list string :=
  match es with
  | [] => []
  | Logged l message :: rest =>
      match level, l with
      | info, info | error, error | debug, debug => message :: loggedAt level rest
      | _, _ => loggedAt level rest
      end
  | _ :: rest => loggedAt level rest
  end.

(** The frames sent to [client] among [es]. *)
Fixpoint sentTo (client : nat) (es : list Event) : list string :=
  match es with
  | [] => []
  | Sent c frame :: rest =>
      if Nat.eqb c client then frame :: sentTo client rest else sentTo client rest
  | _ :: rest => sentTo client rest
  end.

Definition noBundles : string :=
  "Couldn't find any javascript bundles in provided stats file".

Definition isOpenClient (client : WebSocket.Client) : bool :=
  WebSocket.isOpen (WebSocket.readyState client).

(** The sends of one broadcast of [frame] to [connected]. *)
Definition broadcastOf (frame : string) (connected : list WebSocket.Client) : list Event :=
  map (fun client => Sent (WebSocket.id client) frame)
      (List.filter isOpenClient connected).

(** ** Test doubles *)

(** A double of [ToString]: right on zeros, NaN, infinities and objects
    without a [toString] property; every other value it renders like
    such an object. *)
Definition doubleToString (v : JS.Value) : JS.Error + string :=
  match v with
  | JS.Num (S754_zero _) => inr "0"
  | JS.Num S754_nan => inr "NaN"
  | JS.Num (S754_infinity false) => inr "Infinity"
  | JS.Num (S754_infinity true) => inr "-Infinity"
  | JS.Obj props =>
      match JS.assoc "toString" props with
      | Some _ => inl (JS.TypeError "Cannot convert object to primitive value")
      | None => inr "[object Object]"
      end
  | _ => inr "[object Object]"
  end.

(** What a double of the analyzer does with [answer]: it throws the
    error or returns the value. *)
Definition answerOf (answer : JS.Error + JS.Value) : JS.Thrown + JS.Value :=
  match answer with
  | inl e => inl (JS.ThrownError e)
  | inr v => inr v
  end.

(** Collaborators that never refuse anything, with an analyzer that
    answers [answer] whatever it is given. *)
Definition mock (answer : JS.Error + JS.Value) : Collaborators :=
  {| getViewerData := fun _ _ _ => answerOf answer;
     ToString := doubleToString;
     renderViewer := fun o => "<html>" +:+ vo_mode o +:+ "</html>";
     JSON_stringify := fun v => if JS.isArray v then "[...]" else "{...}";
     bold := fun s => s;
     process_cwd := "/home/me/app";
     projectRoot := "/opt/analyzer";
     server_address := fun port host => JS.Obj [("address", JS.Str host)];
     refuses := fun _ => None |}.

Definition emptyWorld : World :=
  {| trace := []; files := ∅; currentChartData := JS.Undefined; clients := [] |}.

Definition someOpts : AnalyzerOpts :=
  {| ao_excludeAssets := JS.Null; ao_compressionAlgorithm := JS.Str "gzip" |}.

Definition boom : JS.Error :=
  {| JS.err_name := "Error"; JS.err_message := "Unexpected token";
     JS.err_stack := "Error: Unexpected token at parse (analyzer.js:1:1)" |}.

Definition mainStats : JS.Value :=
  JS.Obj [("entrypoints", JS.Obj [("main", JS.Obj [("name", JS.Str "main")])])].

Definition mainChart : list JS.Value :=
  [JS.Obj [("label", JS.Str "main.js"); ("statSize", JS.int 100)]].

(** Stats in which the record of an entrypoint is [null]. *)
Definition brokenStats : JS.Value :=
  JS.Obj [("entrypoints", JS.Obj [("main", JS.Null)])].

Definition someServer : Server :=
  {| sv_analyzerOpts := someOpts; sv_bundleDir := None;
     sv_entrypoints := [JS.Str "main"]; sv_reportTitle := TitleValue (JS.Str "report");
     sv_defaultSizes := JS.Str "gzip"; sv_compressionAlgorithm := JS.Str "brotli" |}.

(** A running server with four clients, two of them open. *)
Definition busyWorld : World :=
  {| trace := []; files := ∅; currentChartData := JS.Arr [];
     clients :=
       [WebSocket.mkClient 1 WebSocket.OPEN; WebSocket.mkClient 2 WebSocket.CLOSING;
        WebSocket.mkClient 3 WebSocket.OPEN; WebSocket.mkClient 4 WebSocket.CONNECTING] |}.

(** Options of a report generator that does not open the browser. *)
Definition reportOpts (bundleDir : option string) (reportFilename : string) : Opts.t :=
  {| Opts.port := None; Opts.host := None; Opts.openBrowser := Some false;
     Opts.bundleDir := bundleDir;
     Opts.defaultSizes := JS.Undefined; Opts.compressionAlgorithm := JS.Str "gzip";
     Opts.excludeAssets := JS.Undefined; Opts.reportTitle := TitleValue (JS.Str "report");
     Opts.analyzerUrl := None; Opts.reportFilename := Some reportFilename |}.

Definition serverOpts : Opts.t :=
  {| Opts.port := None; Opts.host := None; Opts.openBrowser := None;
     Opts.bundleDir := None; Opts.defaultSizes := JS.Str "gzip";
     Opts.compressionAlgorithm := JS.Str "brotli";
     Opts.excludeAssets := JS.Undefined;
     Opts.reportTitle := TitleFunction (fun _ => JS.Str "report");
     Opts.analyzerUrl := Some (fun bound => "http://" +:+ listenHost bound);
     Opts.reportFilename := None |}.

(** ** Runs of several calls, and what a run leaves alone *)

Section Runs.

Context {collaborators : Collaborators}.

(** The value that [getChartData] returns: [null] when the analyzer
    raised or returned something truthy that is not an array, and what the
    analyzer returned otherwise. *)
Definition yielded (analyzerOpts : AnalyzerOpts) (bundleStats : JS.Value)
    (bundleDir : option string) : JS.Value :=
  match getViewerData bundleStats bundleDir analyzerOpts with
  | inl _ => JS.Null
  | inr v => if JS.truthy v && negb (JS.isArray v) then JS.Null else v
  end.

(** What [getChartData] logs on the way. *)
Definition pipelineLog (analyzerOpts : AnalyzerOpts) (bundleStats : JS.Value)
    (bundleDir : option string) : list Event :=
  match getViewerData bundleStats bundleDir analyzerOpts with
  | inl err =>
      match interpolate err with
      | inl _ => []
      | inr text =>
          Logged error ("Couldn't analyze webpack bundle:" +:+ LF +:+ text)
          :: match JS.stack err with
             | inl _ => []
             | inr (JS.Str stack) => [Logged debug stack]
             | inr stack => [LoggedValue debug stack]
             end
      end
  | inr v => if JS.truthy v && negb (JS.isArray v) then [Logged error noBundles] else []
  end.

(** What the handler of [getChartData] throws, if it does: the error of
    the conversion of what it caught, or of the read of its [stack]. *)
Definition handlerThrows (analyzerOpts : AnalyzerOpts) (bundleStats : JS.Value)
    (bundleDir : option string) : option JS.Error :=
  match getViewerData bundleStats bundleDir analyzerOpts with
  | inl err =>
      match interpolate err with
      | inl e => Some e
      | inr _ => match JS.stack err with inl e => Some e | inr _ => None end
      end
  | inr _ => None
  end.

(** A driver that calls [updateChartData] of one server with one stats
    object after the other, whatever the outcome of each call; it gives
    the outcomes of the calls, in order. *)
Fixpoint updateAll (server : Server) (updates : list JS.Value) (w : World)
  : list (Outcome unit) * World :=
  match updates with
  | [] => ([], w)
  | bundleStats :: later =>
      let '(outcome, w1) := updateChartData server bundleStats w in
      let '(outcomes, w2) := updateAll server later w1 in
      (outcome :: outcomes, w2)
  end.

(** The chart data that a server accepts out of a list of updates. *)
Definition accepted (server : Server) (updates : list JS.Value) : list JS.Value :=
  List.filter JS.truthy
    (map (fun bundleStats =>
            yielded (sv_analyzerOpts server) bundleStats (sv_bundleDir server))
         updates).

(** The page that the request handler renders for [chartData]. *)
Definition viewerPage (server : Server) (chartData : JS.Value) : string :=
  renderViewer
    {| vo_mode := "server";
       vo_title := resolveTitle (sv_reportTitle server);
       vo_chartData := chartData;
       vo_entrypoints := sv_entrypoints server;
       vo_defaultSizes :=
         resolveDefaultSizes (sv_defaultSizes server) (sv_compressionAlgorithm server);
       vo_compressionAlgorithm := sv_compressionAlgorithm server;
       vo_enableWebSocket := true |}.

(** The page that [generateReport] renders. *)
Definition staticPage (o : Opts.t) (chartData : JS.Value) (entrypoints : list JS.Value)
  : string :=
  renderViewer
    {| vo_mode := "static";
       vo_title := resolveTitle (Opts.reportTitle o);
       vo_chartData := chartData;
       vo_entrypoints := entrypoints;
       vo_defaultSizes :=
         resolveDefaultSizes (JS.default (JS.Str "parsed") (Opts.defaultSizes o))
           (Opts.compressionAlgorithm o);
       vo_compressionAlgorithm := Opts.compressionAlgorithm o;
       vo_enableWebSocket := false |}.

End Runs.

(** A computation leaves the server alone when, however it ends, the
    current chart data and the clients are as before and no client has
    been sent anything. *)
Definition keepsServer {A : Type} (m : M A) : Prop :=
  forall w,
    currentChartData (m w).2 = currentChartData w
    /\ clients (m w).2 = clients w
    /\ forall client, sentTo client (trace (m w).2) = sentTo client (trace w).

Definition isSent (e : Event) : bool :=
  match e with Sent _ _ => true | _ => false end.

(** Collaborators like those of [mock], on an operating system that
    refuses what [refuse] says. *)
Definition mockOn (refuse : SysCall -> option JS.Error) (answer : JS.Error + JS.Value)
  : Collaborators :=
  {| getViewerData := fun _ _ _ => answerOf answer;
     ToString := doubleToString;
     renderViewer := fun o => "<html>" +:+ vo_mode o +:+ "</html>";
     JSON_stringify := fun v => if JS.isArray v then "[...]" else "{...}";
     bold := fun s => s;
     process_cwd := "/home/me/app";
     projectRoot := "/opt/analyzer";
     server_address := fun port host => JS.Obj [("address", JS.Str host)];
     refuses := refuse |}.

(** Collaborators like those of [mock], with an analyzer that throws
    the value [thrown], which is not an [Error], on stats that are not an
    array and answers with the stats otherwise. *)
Definition thrower (thrown : JS.Value) : Collaborators :=
  {| getViewerData := fun bundleStats _ _ =>
       if JS.isArray bundleStats then inr bundleStats
       else inl (JS.ThrownValue thrown);
     ToString := doubleToString;
     renderViewer := fun o => "<html>" +:+ vo_mode o +:+ "</html>";
     JSON_stringify := fun v => if JS.isArray v then "[...]" else "{...}";
     bold := fun s => s;
     process_cwd := "/home/me/app";
     projectRoot := "/opt/analyzer";
     server_address := fun port host => JS.Obj [("address", JS.Str host)];
     refuses := fun _ => None |}.

Definition EACCES : JS.Error :=
  {| JS.err_name := "Error"; JS.err_message := "EACCES: permission denied";
     JS.err_stack := "Error: EACCES: permission denied" |}.

Definition noMkdir (c : SysCall) : option JS.Error :=
  match c with SysMkdir _ => Some EACCES | _ => None end.

Definition noWrite (c : SysCall) : option JS.Error :=
  match c with SysWriteFile _ => Some EACCES | _ => None end.

Definition EADDRINUSE : JS.Error :=
  {| JS.err_name := "Error"; JS.err_message := "listen EADDRINUSE: address already in use";
     JS.err_stack := "Error: listen EADDRINUSE: address already in use" |}.

Definition noListen (c : SysCall) : option JS.Error :=
  match c with SysListen _ _ => Some EADDRINUSE | _ => None end.

(** Options without a [reportFilename]. *)
Definition namelessOpts : Opts.t :=
  {| Opts.port := None; Opts.host := None; Opts.openBrowser := Some false;
     Opts.bundleDir := None;
     Opts.defaultSizes := JS.Undefined; Opts.compressionAlgorithm := JS.Undefined;
     Opts.excludeAssets := JS.Undefined; Opts.reportTitle := TitleValue JS.Undefined;
     Opts.analyzerUrl := None; Opts.reportFilename := None |}.

Definition otherChart : list JS.Value :=
  [JS.Obj [("label", JS.Str "vendor.js"); ("statSize", JS.int 7)]].

(** Collaborators like those of [mock], with an analyzer that answers
    with the stats it is given. *)
Definition echo : Collaborators :=
  {| getViewerData := fun bundleStats _ _ => inr bundleStats;
     ToString := doubleToString;
     renderViewer := fun o => "<html>" +:+ vo_mode o +:+ "</html>";
     JSON_stringify := fun v =>
       match v with
       | JS.Arr items => if Nat.eqb (length items) 0 then "[]" else "[...]"
       | JS.Obj [("event", _); ("data", JS.Arr items)] =>
           if Nat.eqb (length items) 0 then "{update: []}" else "{update: [...]}"
       | _ => "{...}"
       end;
     bold := fun s => s;
     process_cwd := "/home/me/app";
     projectRoot := "/opt/analyzer";
     server_address := fun port host => JS.Obj [("address", JS.Str host)];
     refuses := fun _ => None |}.

(** * Properties *)

(** ** The model on small inputs *)

Example truthy_examples :
  JS.truthy (JS.int 0) = false /\ JS.truthy (JS.Num (S754_zero true)) = false
  /\ JS.truthy (JS.Num S754_nan) = false /\ JS.truthy (JS.int 1) = true
  /\ JS.truthy (JS.Str "") = false /\ JS.truthy (JS.Str "0") = true
  /\ JS.truthy (JS.Arr []) = true /\ JS.truthy (JS.Obj []) = true.
Proof. repeat split. Qed.

Example path_resolve_examples :
  Path.resolve "/home/me" ["/out"; "report.html"] = "/out/report.html"
  /\ Path.resolve "/home/me" ["/out"; "/tmp/report.html"] = "/tmp/report.html"
  /\ Path.resolve "/home/me" ["dist"; "../r/./report.html"] = "/home/me/r/report.html"
  /\ Path.resolve "/home/me" ["/out"; ""] = "/out".
Proof. repeat split. Qed.

Example path_join_examples :
  Path.join ["/out"; "/tmp/report.html"] = "/out/tmp/report.html"
  /\ Path.join ["a"; "../../b/"] = "../b/"
  /\ Path.join [""; ""] = ".".
Proof. repeat split. Qed.

Example path_dirname_examples :
  Path.dirname "/out/report.html" = "/out" /\ Path.dirname "report.json" = "."
  /\ Path.dirname "a/b/" = "a" /\ Path.dirname "/a" = "/"
  /\ Path.dirname "//a" = "//" /\ Path.dirname "a//b" = "a/"
  /\ Path.dirname "reports/2024/stats.json" = "reports/2024".
Proof. repeat split. Qed.

Example getEntrypoints_of_values :
  getEntrypoints (JS.Obj [("entrypoints", JS.Null)]) = inr []
  /\ getEntrypoints (JS.int 5) = inr []
  /\ getEntrypoints (JS.Obj [("entrypoints", JS.Str "ab")])
     = inr [JS.Undefined; JS.Undefined]
  /\ getEntrypoints (JS.Obj [("entrypoints", JS.Arr [JS.Obj [("name", JS.Str "x")]])])
     = inr [JS.Str "x"].
Proof. repeat split. Qed.

(** On stats that the analyzer accepts, [startServer] does start a
    server, which then serves the viewer page. *)
Example startServer_starts :
  let run := @startServer (mock (inr (JS.Arr mainChart))) mainStats (Some serverOpts)
               emptyWorld in
  trace run.2 =
    [CreatedStatic "/opt/analyzer/public" true; CreatedServer;
     Listening 8888 "127.0.0.1";
     Logged info ("Webpack Bundle Analyzer is started at http://127.0.0.1" +:+ LF +:+
                  "Use Ctrl+C to close it");
     OpenedBrowser "http://127.0.0.1"; CreatedWebSocketServer]
  /\ currentChartData run.2 = JS.Arr mainChart
  /\ exists server,
       run.1 = Return (Some server)
       /\ sv_entrypoints server = [JS.Str "main"]
       /\ (@handleRequest (mock (inr (JS.Arr mainChart))) server "GET" "/" run.2).1
          = Return (Page 200 "text/html" "<html>server</html>")
       /\ (@handleRequest (mock (inr (JS.Arr mainChart))) server "GET" "/viewer.js" run.2).1
          = Return Delegated.
Proof. repeat split. eexists. repeat split. Qed.

(** What the handler of [getChartData] does with a string, with an
    object that carries a [stack], and with [undefined]. *)
Example getChartData_catches :
  @getChartData (thrower (JS.Str "out of memory")) someOpts mainStats None emptyWorld
  = (Return JS.Null,
     after emptyWorld
       [Logged error ("Couldn't analyze webpack bundle:" +:+ LF +:+ "out of memory");
        LoggedValue debug JS.Undefined])
  /\ @getChartData (thrower (JS.Obj [("stack", JS.Str "at parse")])) someOpts mainStats None
       emptyWorld
     = (Return JS.Null,
        after emptyWorld
          [Logged error ("Couldn't analyze webpack bundle:" +:+ LF +:+ "[object Object]");
           Logged debug "at parse"])
  /\ @getChartData (thrower JS.Undefined) someOpts mainStats None emptyWorld
     = (Throw (JS.TypeError "Cannot read properties of undefined (reading 'stack')"),
        after emptyWorld
          [Logged error ("Couldn't analyze webpack bundle:" +:+ LF +:+ "undefined")])
  /\ @getChartData (thrower JS.Undefined) someOpts (JS.Arr mainChart) None emptyWorld
     = (Return (JS.Arr mainChart), emptyWorld).
Proof. repeat split. Qed.

(** A port that is taken, or options without [analyzerUrl], end
    [startServer] in an exception that its caller cannot catch. *)
Example startServer_uncaught :
  @startServer (mockOn noListen (inr (JS.Arr mainChart))) mainStats (Some serverOpts)
    emptyWorld
  = (Uncaught EADDRINUSE,
     {| trace := [CreatedStatic "/opt/analyzer/public" true; CreatedServer];
        files := ∅; currentChartData := JS.Arr mainChart; clients := [] |})
  /\ (@startServer (mock (inr (JS.Arr mainChart))) mainStats None emptyWorld).1
     = Uncaught (JS.TypeError "analyzerUrl is not a function")
  /\ trace (@startServer (mock (inr (JS.Arr mainChart))) mainStats None emptyWorld).2
     = [CreatedStatic "/opt/analyzer/public" true; CreatedServer;
        Listening 8888 "127.0.0.1"].
Proof. repeat split. Qed.

Example onSocketError_examples :
  (@onSocketError (Some (-104)%Z) "read ECONNRESET" emptyWorld).2 = emptyWorld
  /\ trace (@onSocketError None "Invalid WebSocket frame" emptyWorld).2
     = [Logged info "Invalid WebSocket frame"].
Proof. repeat split. Qed.

(** ** Facts about paths *)

Module PathFacts.

Lemma append_cons (x : ascii) (a b : string) : String x a +:+ b = String x (a +:+ b).
Proof. reflexivity. Qed.

Lemma append_assoc (a b c : string) : (a +:+ b) +:+ c = a +:+ b +:+ c.
Proof.
  induction a as [| x a IH]; [done |]. by rewrite !append_cons, IH.
Qed.

Lemma append_nonempty (a b : string) : a <> "" -> String.eqb (a +:+ b) "" = false.
Proof. destruct a; [done | reflexivity]. Qed.

Lemma nonempty_eqb (p : string) : p <> "" -> String.eqb p "" = false.
Proof. intros Hp. by apply String.eqb_neq. Qed.

Lemma absolute_nonempty (p : string) : Path.isAbsolute p = true -> p <> "".
Proof. by destruct p. Qed.

Lemma absolute_append (a b : string) :
  Path.isAbsolute a = true -> Path.isAbsolute (a +:+ b) = true.
Proof. by destruct a. Qed.

Lemma endsWithSlash_append (a b : string) :
  b <> "" -> Path.endsWithSlash (a +:+ b) = Path.endsWithSlash b.
Proof.
  intros Hb. induction a as [| x a IH]; [done |].
  rewrite append_cons. cbn [Path.endsWithSlash]. rewrite IH.
  destruct (a +:+ b) eqn:Hab; [| done].
  destruct a; [done | discriminate].
Qed.

Lemma segments_nonempty (p : string) : Path.segments p <> [].
Proof.
  induction p as [| c p IH]; [done |]. cbn.
  destruct (Path.is_slash c); [done |]. by destruct (Path.segments p).
Qed.

Lemma segments_trailing_slash (p : string) :
  Path.segments (p +:+ "/") = Path.segments p ++ [""].
Proof.
  induction p as [| c p IH]; [done |].
  rewrite append_cons. cbn [Path.segments]. rewrite IH.
  destruct (Path.is_slash c); [done |].
  pose proof (segments_nonempty p). by destruct (Path.segments p).
Qed.

(** A trailing slash does not change the segments that are kept. *)
Lemma normalizeString_trailing_slash (p : string) (allowAboveRoot : bool) :
  Path.normalizeString (p +:+ "/") allowAboveRoot = Path.normalizeString p allowAboveRoot.
Proof.
  unfold Path.normalizeString.
  by rewrite segments_trailing_slash, fold_left_app.
Qed.

(** [path.normalize] of an absolute path that does not end in a slash. *)
Lemma normalize_absolute (p : string) :
  Path.isAbsolute p = true ->
  Path.endsWithSlash p = false ->
  Path.normalize p = "/" +:+ Path.normalizeString p false.
Proof.
  intros Habs Hend. unfold Path.normalize.
  rewrite (nonempty_eqb _ (absolute_nonempty _ Habs)), Habs, Hend. cbn [negb].
  by destruct (String.eqb_spec (Path.normalizeString p false) "") as [-> |].
Qed.

(** An absolute last argument is the result of [path.resolve], whatever
    stands before it. *)
Lemma resolve_absolute (cwd dir name : string) :
  Path.isAbsolute name = true ->
  Path.resolve cwd [dir; name] = "/" +:+ Path.normalizeString name false.
Proof.
  intros Habs. unfold Path.resolve. cbn [rev app Path.resolveLoop].
  rewrite (nonempty_eqb _ (absolute_nonempty _ Habs)), Habs.
  cbn [negb].
  change (name +:+ "/" +:+ "") with (name +:+ "/").
  by rewrite normalizeString_trailing_slash.
Qed.

(** A relative last argument is appended to an absolute directory, as
    [path.join] does. *)
Lemma resolve_relative (cwd dir name : string) :
  Path.isAbsolute dir = true ->
  name <> "" ->
  Path.isAbsolute name = false ->
  Path.endsWithSlash name = false ->
  Path.resolve cwd [dir; name] = Path.join [dir; name].
Proof.
  intros Hdir Hname Hrel Hend.
  pose proof (absolute_nonempty _ Hdir) as Hdir'.
  unfold Path.resolve, Path.join. cbn [rev app Path.resolveLoop List.filter].
  rewrite (nonempty_eqb _ Hname), Hrel, (nonempty_eqb _ Hdir'), Hdir.
  cbn [negb String.concat].
  change (dir +:+ "/" +:+ name +:+ "/" +:+ "") with (dir +:+ "/" +:+ name +:+ "/").
  replace (dir +:+ "/" +:+ name +:+ "/") with ((dir +:+ "/" +:+ name) +:+ "/")
    by (by rewrite !append_assoc).
  rewrite normalizeString_trailing_slash. symmetry.
  apply normalize_absolute; [by apply absolute_append |].
  rewrite endsWithSlash_append by (by destruct name).
  by rewrite endsWithSlash_append.
Qed.

(** Under a relative directory the working directory comes first. *)
Lemma resolve_relative_dir (cwd dir name : string) :
  Path.isAbsolute cwd = true ->
  dir <> "" ->
  Path.isAbsolute dir = false ->
  name <> "" ->
  Path.isAbsolute name = false ->
  Path.endsWithSlash name = false ->
  Path.resolve cwd [dir; name] = Path.join [cwd; dir; name].
Proof.
  intros Hcwd Hdir Hdirrel Hname Hrel Hend.
  pose proof (absolute_nonempty _ Hcwd) as Hcwd'.
  unfold Path.resolve, Path.join. cbn [rev app Path.resolveLoop List.filter].
  rewrite (nonempty_eqb _ Hname), Hrel, (nonempty_eqb _ Hdir), Hdirrel,
    (nonempty_eqb _ Hcwd'), Hcwd.
  cbn [negb String.concat].
  change (cwd +:+ "/" +:+ dir +:+ "/" +:+ name +:+ "/" +:+ "")
    with (cwd +:+ "/" +:+ dir +:+ "/" +:+ name +:+ "/").
  replace (cwd +:+ "/" +:+ dir +:+ "/" +:+ name +:+ "/")
    with ((cwd +:+ "/" +:+ dir +:+ "/" +:+ name) +:+ "/")
    by (by rewrite !append_assoc).
  rewrite normalizeString_trailing_slash. symmetry.
  apply normalize_absolute; [by apply absolute_append |].
  rewrite endsWithSlash_append by done.
  rewrite endsWithSlash_append by (by destruct dir).
  rewrite endsWithSlash_append by done.
  by rewrite endsWithSlash_append.
Qed.

End PathFacts.

(** ** Facts about runs *)

Lemma after_nil w : after w [] = w.
Proof. destruct w. unfold after. cbn. by rewrite app_nil_r. Qed.

Lemma after_after w es es' : after (after w es) es' = after w (es ++ es').
Proof. unfold after. cbn. by rewrite app_assoc. Qed.

Lemma loggedAt_app level es es' :
  loggedAt level (es ++ es') = loggedAt level es ++ loggedAt level es'.
Proof.
  induction es as [| e es IH]; [done |].
  destruct e as [l message | | | | | | | | | |]; cbn; try exact IH.
  destruct level, l; cbn; by rewrite ?IH.
Qed.

Lemma sentTo_logs client logs :
  forallb isLogged logs = true -> sentTo client logs = [].
Proof.
  induction logs as [| e logs IH]; [done |].
  destruct e; cbn; try discriminate; exact IH.
Qed.

Lemma sentTo_stranger frame connected n :
  ~ In n (map WebSocket.id connected) ->
  sentTo n (broadcastOf frame connected) = [].
Proof.
  unfold broadcastOf.
  induction connected as [| c connected IH]; intros Hn; [done |].
  cbn in Hn. cbn [List.filter].
  destruct (isOpenClient c); cbn [map sentTo].
  - destruct (Nat.eqb_spec (WebSocket.id c) n) as [Heq | _]; [tauto |].
    apply IH. tauto.
  - apply IH. tauto.
Qed.

Lemma sentTo_member frame connected c :
  List.NoDup (map WebSocket.id connected) ->
  In c connected ->
  sentTo (WebSocket.id c) (broadcastOf frame connected) =
    if isOpenClient c then [frame] else [].
Proof.
  induction connected as [| c0 connected IH]; intros Hdup Hin; [destruct Hin |].
  cbn in Hdup. apply List.NoDup_cons_iff in Hdup as [Hfresh Hdup].
  destruct Hin as [-> | Hin].
  - unfold broadcastOf. cbn [List.filter].
    destruct (isOpenClient c); cbn [map sentTo].
    + rewrite Nat.eqb_refl. f_equal. by apply sentTo_stranger.
    + by apply sentTo_stranger.
  - assert (WebSocket.id c0 <> WebSocket.id c) as Hne.
    { intros Heq. apply Hfresh. rewrite Heq. by apply in_map. }
    unfold broadcastOf. cbn [List.filter].
    destruct (isOpenClient c0); cbn [map sentTo].
    + destruct (Nat.eqb_spec (WebSocket.id c0) (WebSocket.id c)); [done |].
      by apply IH.
    + by apply IH.
Qed.

Lemma get_of_value (r : JS.Value) (k : string) :
  JS.nullish r = false -> JS.get r k = inr (JS.field r k).
Proof. by destruct r. Qed.

Lemma get_of_nullish (r : JS.Value) (k : string) :
  JS.nullish r = true -> exists e, JS.get r k = inl e.
Proof. destruct r; try discriminate; intros _; eexists; reflexivity. Qed.

(** ** The chart-data pipeline *)

Section Pipeline.

Context {collaborators : Collaborators}.

Lemma emit_after e w : emit e w = (Return tt, after w [e]).
Proof. reflexivity. Qed.

(** The ways through [getChartData]: the analyzer raised, and then the
    handler may throw at the conversion of what it caught, before it
    logs, or at the read of its [stack], after the first log entry; or
    the analyzer returned something truthy that is not an array; or it
    returned anything else. *)
Lemma getChartData_eq analyzerOpts bundleStats bundleDir w :
  getChartData analyzerOpts bundleStats bundleDir w =
    match getViewerData bundleStats bundleDir analyzerOpts with
    | inl err =>
        match interpolate err with
        | inl e => (Throw e, w)
        | inr text =>
            match JS.stack err with
            | inl e =>
                (Throw e,
                 after w [Logged error ("Couldn't analyze webpack bundle:" +:+ LF +:+ text)])
            | inr (JS.Str stack) =>
                (Return JS.Null,
                 after w [Logged error ("Couldn't analyze webpack bundle:" +:+ LF +:+ text);
                          Logged debug stack])
            | inr stack =>
                (Return JS.Null,
                 after w [Logged error ("Couldn't analyze webpack bundle:" +:+ LF +:+ text);
                          LoggedValue debug stack])
            end
        end
    | inr v =>
        if JS.truthy v && negb (JS.isArray v)
        then (Return JS.Null, after w [Logged error noBundles])
        else (Return v, w)
    end.
Proof.
  unfold getChartData, bind, logger, loggerValue, lift, ret, throw, emit, after.
  destruct (getViewerData bundleStats bundleDir analyzerOpts) as [err | v].
  - destruct (interpolate err) as [e | text]; [by destruct w |].
    destruct (JS.stack err) as [e | [| | | | stack | |]]; cbn;
      rewrite <- ?app_assoc; reflexivity.
  - cbn. destruct (JS.truthy v && negb (JS.isArray v)); [done | by destruct w].
Qed.

(** A run of [getChartData], in closed form. *)
Lemma getChartData_run analyzerOpts bundleStats bundleDir w :
  getChartData analyzerOpts bundleStats bundleDir w =
    (match handlerThrows analyzerOpts bundleStats bundleDir with
     | Some e => Throw e
     | None => Return (yielded analyzerOpts bundleStats bundleDir)
     end,
     after w (pipelineLog analyzerOpts bundleStats bundleDir)).
Proof.
  rewrite getChartData_eq. unfold yielded, pipelineLog, handlerThrows.
  destruct (getViewerData bundleStats bundleDir analyzerOpts) as [err | v].
  - destruct (interpolate err) as [e | text]; [by rewrite after_nil |].
    by destruct (JS.stack err) as [e | [| | | | stack | |]].
  - destruct (JS.truthy v && negb (JS.isArray v)); [done |]. by rewrite after_nil.
Qed.

Lemma pipelineLog_logged analyzerOpts bundleStats bundleDir :
  forallb isLogged (pipelineLog analyzerOpts bundleStats bundleDir) = true.
Proof.
  unfold pipelineLog.
  destruct (getViewerData bundleStats bundleDir analyzerOpts) as [err | v].
  - destruct (interpolate err) as [e | text]; [done |].
    by destruct (JS.stack err) as [e | [| | | | stack | |]].
  - by destruct (JS.truthy v && negb (JS.isArray v)).
Qed.

Lemma yielded_truthy analyzerOpts bundleStats bundleDir :
  JS.truthy (yielded analyzerOpts bundleStats bundleDir) = true ->
  JS.isArray (yielded analyzerOpts bundleStats bundleDir) = true
  /\ pipelineLog analyzerOpts bundleStats bundleDir = []
  /\ getViewerData bundleStats bundleDir analyzerOpts
     = inr (yielded analyzerOpts bundleStats bundleDir).
Proof.
  unfold yielded, pipelineLog.
  destruct (getViewerData bundleStats bundleDir analyzerOpts) as [err | v]; [done |].
  destruct (JS.truthy v) eqn:Ht, (JS.isArray v) eqn:Ha; cbn [andb negb];
    rewrite ?Ht; try done.
Qed.

(** What [getChartData] returns, when it returns. *)
Lemma getChartData_returned analyzerOpts bundleStats bundleDir w v :
  (getChartData analyzerOpts bundleStats bundleDir w).1 = Return v ->
  v = yielded analyzerOpts bundleStats bundleDir
  /\ getChartData analyzerOpts bundleStats bundleDir w =
     (Return v, after w (pipelineLog analyzerOpts bundleStats bundleDir)).
Proof.
  rewrite getChartData_run. cbn [fst].
  destruct (handlerThrows analyzerOpts bundleStats bundleDir); [discriminate |].
  by intros [= <-].
Qed.

(** The handler throws only when the analyzer threw something that is not
    an [Error]: a number, an array or an object whose conversion throws,
    or [null] or [undefined], which have no [stack]. *)
Lemma handlerThrows_value analyzerOpts bundleStats bundleDir e :
  handlerThrows analyzerOpts bundleStats bundleDir = Some e ->
  exists thrown,
    getViewerData bundleStats bundleDir analyzerOpts = inl (JS.ThrownValue thrown)
    /\ ((JS.nullish thrown = false /\ ToString thrown = inl e)
        \/ (JS.nullish thrown = true /\ JS.get thrown "stack" = inl e)).
Proof.
  unfold handlerThrows.
  destruct (getViewerData bundleStats bundleDir analyzerOpts) as [[err | thrown] | v];
    cbn; try discriminate.
  intros Hthrows. exists thrown. split; [done |].
  destruct thrown as [| | b | x | s | items | props]; cbn in Hthrows;
    try discriminate.
  1, 2: injection Hthrows as <-; by right.
  all: destruct (ToString _) as [e' | text]; [| discriminate].
  all: injection Hthrows as <-; by left.
Qed.

Lemma getChartData_sequence analyzerOpts bundleStats bundleDir w items :
  (getChartData analyzerOpts bundleStats bundleDir w).1 = Return (JS.Arr items) ->
  getChartData analyzerOpts bundleStats bundleDir w = (Return (JS.Arr items), w).
Proof.
  intros Hv. destruct (getChartData_returned _ _ _ _ _ Hv) as [Hyielded ->].
  destruct (yielded_truthy analyzerOpts bundleStats bundleDir) as (_ & -> & _).
  { by rewrite <- Hyielded. }
  by rewrite after_nil.
Qed.

(** C1 (amended): when the analyzer returns a truthy value that is not an
    array, whatever its shape, [getChartData] returns [null] and logs, at
    error level, that no bundles were found, and does nothing else. *)
Theorem getChartData_no_bundles analyzerOpts bundleStats bundleDir v w :
  getViewerData bundleStats bundleDir analyzerOpts = inr v ->
  JS.truthy v = true ->
  JS.isArray v = false ->
  let run := getChartData analyzerOpts bundleStats bundleDir w in
  run = (Return JS.Null, after w [Logged error noBundles])
  /\ trace run.2 = trace w ++ [Logged error noBundles]
  /\ loggedAt error (trace run.2) = loggedAt error (trace w) ++ [noBundles].
Proof.
  intros Hret Htruthy Harray run.
  assert (run = (Return JS.Null, after w [Logged error noBundles])) as Hrun.
  { unfold run. rewrite getChartData_eq, Hret, Htruthy, Harray. reflexivity. }
  rewrite Hrun. repeat split. cbn. by rewrite loggedAt_app.
Qed.

(** C4 (amended): when the analyzer raises an [Error], [getChartData]
    returns [null] after exactly two log entries, the error message at
    error level and then the stack at debug level; so it does, with what
    the value has as [stack], when the analyzer raises any other value
    that is neither [null] nor [undefined] and that converts to a string.
    [getChartData] throws only out of its handler, when what the analyzer
    raised is not an [Error] and either is a number, an array or an object
    whose conversion to a string throws, or is [null] or [undefined]. *)
Theorem getChartData_analyzer_raises analyzerOpts bundleStats bundleDir w :
  (forall err,
     getViewerData bundleStats bundleDir analyzerOpts = inl (JS.ThrownError err) ->
     let logs :=
       [Logged error ("Couldn't analyze webpack bundle:" +:+ LF +:+ JS.toString err);
        Logged debug (JS.err_stack err)] in
     getChartData analyzerOpts bundleStats bundleDir w = (Return JS.Null, after w logs)
     /\ loggedAt error logs = ["Couldn't analyze webpack bundle:" +:+ LF +:+ JS.toString err]
     /\ loggedAt debug logs = [JS.err_stack err]
     /\ loggedAt info logs = [])
  /\ (forall thrown text,
        getViewerData bundleStats bundleDir analyzerOpts = inl (JS.ThrownValue thrown) ->
        JS.nullish thrown = false ->
        interpolate (JS.ThrownValue thrown) = inr text ->
        exists detail,
          getChartData analyzerOpts bundleStats bundleDir w =
            (Return JS.Null,
             after w [Logged error ("Couldn't analyze webpack bundle:" +:+ LF +:+ text);
                      detail])
          /\ logLevel detail = Some debug)
  /\ (forall e,
        (getChartData analyzerOpts bundleStats bundleDir w).1 = Throw e ->
        exists thrown,
          getViewerData bundleStats bundleDir analyzerOpts = inl (JS.ThrownValue thrown)
          /\ ((JS.nullish thrown = false /\ ToString thrown = inl e)
              \/ (JS.nullish thrown = true /\ JS.get thrown "stack" = inl e)))
  /\ (forall e, (getChartData analyzerOpts bundleStats bundleDir w).1 <> Uncaught e).
Proof.
  split; [| split; [| split]].
  - intros err Hraise logs. split; [| done].
    by rewrite getChartData_eq, Hraise.
  - intros thrown text Hraise Hvalue Htext.
    rewrite getChartData_eq, Hraise, Htext. cbn [JS.stack].
    rewrite (get_of_value _ _ Hvalue).
    destruct (JS.field thrown "stack"); eexists; split; reflexivity.
  - intros e. rewrite getChartData_run. cbn [fst].
    destruct (handlerThrows analyzerOpts bundleStats bundleDir) as [e' |] eqn:Hthrows;
      [| discriminate].
    intros [= <-]. by apply handlerThrows_value.
  - intros e. rewrite getChartData_run. cbn [fst].
    by destruct (handlerThrows analyzerOpts bundleStats bundleDir).
Qed.

End Pipeline.

(** When the pipeline is known to yield an array, it did nothing else. *)
Ltac pipeline_yields H := apply getChartData_sequence in H.

Lemma getChartData_no_bundles_witness :
  @getChartData (mock (inr (JS.Obj []))) someOpts (JS.Obj []) None emptyWorld =
    (Return JS.Null, after emptyWorld [Logged error noBundles]).
Proof.
  apply (@getChartData_no_bundles (mock (inr (JS.Obj []))) someOpts (JS.Obj []) None
           (JS.Obj []) emptyWorld); reflexivity.
Defined.

(** Without truthiness the statement fails: an analyzer that returns [0],
    which is neither an array nor [null], makes [getChartData] return that
    [0] and not [null], and nothing is logged. *)
Lemma getChartData_falsy_counterexample :
  getViewerData (Collaborators := mock (inr (JS.int 0))) mainStats None someOpts
    = inr (JS.int 0)
  /\ JS.isArray (JS.int 0) = false
  /\ JS.int 0 <> JS.Null
  /\ @getChartData (mock (inr (JS.int 0))) someOpts mainStats None emptyWorld
     = (Return (JS.int 0), emptyWorld)
  /\ (@getChartData (mock (inr (JS.int 0))) someOpts mainStats None emptyWorld).1
     <> Return JS.Null
  /\ loggedAt error
       (trace (@getChartData (mock (inr (JS.int 0))) someOpts mainStats None
                 emptyWorld).2) = [].
Proof. repeat split; discriminate. Qed.

Lemma getChartData_analyzer_raises_witness :
  @getChartData (mock (inl boom)) someOpts (JS.Obj []) None emptyWorld =
    (Return JS.Null,
     after emptyWorld
       [Logged error ("Couldn't analyze webpack bundle:" +:+ LF +:+ "Error: Unexpected token");
        Logged debug "Error: Unexpected token at parse (analyzer.js:1:1)"])
  /\ (@getChartData (thrower (JS.Str "out of memory")) someOpts mainStats None
        emptyWorld).1 = Return JS.Null.
Proof.
  split.
  - apply (proj1 (@getChartData_analyzer_raises (mock (inl boom)) someOpts (JS.Obj []) None
                    emptyWorld) boom).
    reflexivity.
  - destruct (proj1 (proj2 (@getChartData_analyzer_raises (thrower (JS.Str "out of memory"))
                              someOpts mainStats None emptyWorld))
                (JS.Str "out of memory") "out of memory" eq_refl eq_refl eq_refl)
      as (detail & Hrun & _).
    rewrite Hrun. reflexivity.
Defined.

(** With [null] raised the statement fails: the handler logs the message
    and then throws, at the read of the [stack] of [null], a [TypeError]
    that leaves [getChartData]; nothing is logged at debug level. *)
Lemma getChartData_raises_null_counterexample :
  getViewerData (Collaborators := thrower JS.Null) mainStats None someOpts
    = inl (JS.ThrownValue JS.Null)
  /\ @getChartData (thrower JS.Null) someOpts mainStats None emptyWorld =
       (Throw (JS.TypeError "Cannot read properties of null (reading 'stack')"),
        after emptyWorld
          [Logged error ("Couldn't analyze webpack bundle:" +:+ LF +:+ "null")])
  /\ (@getChartData (thrower JS.Null) someOpts mainStats None emptyWorld).1
     <> Return JS.Null
  /\ loggedAt debug
       (trace (@getChartData (thrower JS.Null) someOpts mainStats None emptyWorld).2) = [].
Proof. repeat split. discriminate. Qed.

(** ** The report server *)

Section ReportServer.

Context {collaborators : Collaborators}.

Lemma forEach_send frame connected w :
  forEach connected
    (fun client =>
       if WebSocket.isOpen (WebSocket.readyState client) then send client frame
       else ret tt) w
  = (Return tt, after w (broadcastOf frame connected)).
Proof.
  revert w. induction connected as [| c connected IH]; intros w.
  - cbn. by rewrite after_nil.
  - cbn [forEach]. unfold bind, broadcastOf, isOpenClient. cbn [List.filter].
    destruct (WebSocket.isOpen (WebSocket.readyState c)).
    + unfold send. rewrite emit_after, IH, after_after. reflexivity.
    + cbn. apply IH.
Qed.

(** C2: when the re-run of the pipeline yields an array, [updateChartData]
    first stores it as the current chart data and then sends the frame
    [JSON.stringify({event: 'chartDataUpdated', data: newChartData})] once
    to each client whose state is [OPEN], in the order of [wss.clients];
    a client in another state is sent nothing, and the call returns. *)
Theorem updateChartData_broadcasts server bundleStats items w :
  (getChartData (sv_analyzerOpts server) bundleStats (sv_bundleDir server) w).1
    = Return (JS.Arr items) ->
  let newChartData := JS.Arr items in
  let frame :=
    JSON_stringify
      (JS.Obj [("event", JS.Str "chartDataUpdated"); ("data", newChartData)]) in
  let sends :=
    map (fun client => Sent (WebSocket.id client) frame)
        (List.filter (fun client => WebSocket.isOpen (WebSocket.readyState client))
           (clients w)) in
  updateChartData server bundleStats w =
    (Return tt,
     {| trace := trace w ++ Assigned newChartData :: sends;
        files := files w;
        currentChartData := newChartData;
        clients := clients w |})
  /\ (List.NoDup (map WebSocket.id (clients w)) ->
      forall client, In client (clients w) ->
        sentTo (WebSocket.id client) (Assigned newChartData :: sends) =
          if WebSocket.isOpen (WebSocket.readyState client) then [frame] else []).
Proof.
  intros Hrun newChartData frame sends. pipeline_yields Hrun.
  split.
  - unfold updateChartData, bind. rewrite Hrun. cbn [JS.truthy negb].
    unfold assignChartData, wss_clients. cbn [clients].
    rewrite forEach_send. unfold after, chartDataUpdated. cbn.
    by rewrite <- app_assoc.
  - intros Hdup client Hin. cbn [sentTo].
    apply (sentTo_member frame _ _ Hdup Hin).
Qed.

(** C3: when the re-run of the pipeline yields [null], [updateChartData]
    returns without throwing, the current chart data, the clients and the
    files are as before, and the only new events are the log entries of
    the pipeline: nothing is sent to any client. *)
Theorem updateChartData_null_noop server bundleStats w :
  (getChartData (sv_analyzerOpts server) bundleStats (sv_bundleDir server) w).1
    = Return JS.Null ->
  let w' := (updateChartData server bundleStats w).2 in
  (updateChartData server bundleStats w).1 = Return tt
  /\ currentChartData w' = currentChartData w
  /\ clients w' = clients w
  /\ files w' = files w
  /\ exists logs,
       trace w' = trace w ++ logs
       /\ forallb isLogged logs = true
       /\ forall client, sentTo client logs = [].
Proof.
  intros Hrun.
  destruct (getChartData_returned _ _ _ _ _ Hrun) as [_ Hpipe].
  pose proof (pipelineLog_logged (sv_analyzerOpts server) bundleStats
                (sv_bundleDir server)) as Hlogs.
  unfold updateChartData, bind. rewrite Hpipe. cbn.
  repeat split; try done.
  eexists. repeat split; try done.
  intros client. by apply sentTo_logs.
Qed.

(** C5 (amended): when the first run of the pipeline yields [null],
    [startServer] creates no server and binds no listener: all it does to
    the world is what the pipeline logged.  It returns, with nothing,
    whenever [getEntrypoints] returns on the stats. *)
Theorem startServer_null_chart_data bundleStats opts w :
  let o := default Opts.empty opts in
  (getChartData (analyzerOptsOf o) bundleStats (Opts.bundleDir o) w).1 = Return JS.Null ->
  (exists logs,
     (startServer bundleStats opts w).2 = after w logs
     /\ forallb isLogged logs = true)
  /\ (forall entrypoints,
        getEntrypoints bundleStats = inr entrypoints ->
        (startServer bundleStats opts w).1 = Return None).
Proof.
  intros o Hrun.
  destruct (getChartData_returned _ _ _ _ _ Hrun) as [_ Hpipe].
  pose proof (pipelineLog_logged (analyzerOptsOf o) bundleStats (Opts.bundleDir o))
    as Hlogs.
  unfold startServer, bind. fold o. rewrite Hpipe.
  split.
  - eexists. split; [| exact Hlogs].
    by destruct (getEntrypoints bundleStats).
  - by intros entrypoints ->.
Qed.

End ReportServer.

Lemma updateChartData_broadcasts_witness :
  @updateChartData (mock (inr (JS.Arr mainChart))) someServer mainStats busyWorld =
    (Return tt,
     {| trace := [Assigned (JS.Arr mainChart); Sent 1 "{...}"; Sent 3 "{...}"];
        files := ∅;
        currentChartData := JS.Arr mainChart;
        clients := clients busyWorld |})
  /\ sentTo 3 [Assigned (JS.Arr mainChart); Sent 1 "{...}"; Sent 3 "{...}"] = ["{...}"]
  /\ sentTo 4 [Assigned (JS.Arr mainChart); Sent 1 "{...}"; Sent 3 "{...}"] = [].
Proof.
  destruct (@updateChartData_broadcasts (mock (inr (JS.Arr mainChart)))
              someServer mainStats mainChart busyWorld eq_refl) as [Hrun Hclient].
  assert (List.NoDup (map WebSocket.id (clients busyWorld))) as Hdistinct.
  { repeat constructor; cbn; intuition discriminate. }
  split; [exact Hrun |]. split.
  - apply (Hclient Hdistinct (WebSocket.mkClient 3 WebSocket.OPEN)).
    cbn. tauto.
  - apply (Hclient Hdistinct (WebSocket.mkClient 4 WebSocket.CONNECTING)).
    cbn. tauto.
Defined.

Lemma updateChartData_null_noop_witness :
  (@updateChartData (mock (inl boom)) someServer mainStats busyWorld).1 = Return tt
  /\ currentChartData (@updateChartData (mock (inl boom)) someServer mainStats busyWorld).2
     = JS.Arr [].
Proof.
  destruct (@updateChartData_null_noop (mock (inl boom)) someServer mainStats busyWorld
              eq_refl) as (Hret & Hdata & _).
  split; assumption.
Defined.

Lemma startServer_null_chart_data_witness :
  (@startServer (mock (inl boom)) mainStats None emptyWorld).1 = Return None.
Proof.
  apply (proj2 (@startServer_null_chart_data (mock (inl boom)) mainStats None emptyWorld
                  eq_refl) [JS.Str "main"]).
  reflexivity.
Defined.

(** Without the proviso the statement fails: on stats whose entrypoint
    record is [null] the analyzer raises, the pipeline yields [null], and
    [startServer] throws the [TypeError] of [getEntrypoints] instead of
    returning. *)
Lemma startServer_null_counterexample :
  (@getChartData (mock (inl boom)) (analyzerOptsOf Opts.empty) brokenStats None
     emptyWorld).1 = Return JS.Null
  /\ (@startServer (mock (inl boom)) brokenStats None emptyWorld).1
     = Throw (JS.TypeError "Cannot read properties of null (reading 'name')")
  /\ (@startServer (mock (inl boom)) brokenStats None emptyWorld).1 <> Return None.
Proof. repeat split. discriminate. Qed.

(** ** The report generators *)

Section Generators.

Context {collaborators : Collaborators}.

(** What [generateReport] does once the pipeline has yielded an array,
    the entrypoints are extracted and the operating system refuses
    nothing. *)
Lemma generateReport_writes bundleStats opts name items entrypoints w :
  let o := default Opts.empty opts in
  let reportFilepath :=
    Path.resolve process_cwd [bundleDir_or_cwd (Opts.bundleDir o); name] in
  let reportHtml :=
    renderViewer
      {| vo_mode := "static";
         vo_title := resolveTitle (Opts.reportTitle o);
         vo_chartData := JS.Arr items;
         vo_entrypoints := entrypoints;
         vo_defaultSizes :=
           resolveDefaultSizes (JS.default (JS.Str "parsed") (Opts.defaultSizes o))
             (Opts.compressionAlgorithm o);
         vo_compressionAlgorithm := Opts.compressionAlgorithm o;
         vo_enableWebSocket := false |} in
  Opts.reportFilename o = Some name ->
  (getChartData (analyzerOptsOf o) bundleStats (Opts.bundleDir o) w).1
    = Return (JS.Arr items) ->
  getEntrypoints bundleStats = inr entrypoints ->
  refuses (SysMkdir (Path.dirname reportFilepath)) = None ->
  refuses (SysWriteFile reportFilepath) = None ->
  (generateReport bundleStats opts w).1 = Return tt
  /\ trace (generateReport bundleStats opts w).2 =
       trace w ++
       [MadeDir (Path.dirname reportFilepath) true;
        WroteFile reportFilepath reportHtml;
        Logged info
          (bold "Webpack Bundle Analyzer" +:+ " saved report to " +:+ bold reportFilepath)]
       ++ (if default true (Opts.openBrowser o)
           then [OpenedBrowser ("file://" +:+ reportFilepath)] else []).
Proof.
  intros o reportFilepath reportHtml Hname Hrun Hentry Hmkdir Hwrite.
  pipeline_yields Hrun.
  unfold generateReport, bind. fold o. rewrite Hrun, Hentry, Hname.
  cbn [lift ret JS.truthy negb validateString].
  fold reportFilepath. unfold fs_mkdir, fs_writeFile, syscall, bind.
  rewrite Hmkdir, Hwrite. cbn [ret emit logger trace].
  destruct (default true (Opts.openBrowser o)); cbn;
    (split; [done |]); rewrite <- !app_assoc; reflexivity.
Qed.

(** C6 (amended): the static report is written at
    [path.resolve(bundleDir || process.cwd(), reportFilename)].  For an
    absolute [reportFilename] this is [reportFilename] itself, normalized,
    whatever [bundleDir] is.  For a relative one, not empty and without a
    trailing slash, it is [path.join] of the directory
    [bundleDir || process.cwd()] and [reportFilename] when that directory
    is absolute, and [path.join] of the working directory, the directory
    and [reportFilename] when it is relative. *)
Theorem generateReport_path bundleStats opts name items entrypoints w :
  let o := default Opts.empty opts in
  let dir := bundleDir_or_cwd (Opts.bundleDir o) in
  let reportFilepath := Path.resolve process_cwd [dir; name] in
  Opts.reportFilename o = Some name ->
  (getChartData (analyzerOptsOf o) bundleStats (Opts.bundleDir o) w).1
    = Return (JS.Arr items) ->
  getEntrypoints bundleStats = inr entrypoints ->
  refuses (SysMkdir (Path.dirname reportFilepath)) = None ->
  refuses (SysWriteFile reportFilepath) = None ->
  (exists reportHtml rest,
     (generateReport bundleStats opts w).1 = Return tt
     /\ trace (generateReport bundleStats opts w).2 =
          trace w ++
          MadeDir (Path.dirname reportFilepath) true
            :: WroteFile reportFilepath reportHtml :: rest)
  /\ (Path.isAbsolute name = true ->
      reportFilepath = "/" +:+ Path.normalizeString name false)
  /\ (name <> "" -> Path.isAbsolute name = false -> Path.endsWithSlash name = false ->
      (Path.isAbsolute dir = true -> reportFilepath = Path.join [dir; name])
      /\ (Path.isAbsolute dir = false -> dir <> "" ->
          Path.isAbsolute process_cwd = true ->
          reportFilepath = Path.join [process_cwd; dir; name])).
Proof.
  intros o dir reportFilepath Hname Hrun Hentry Hmkdir Hwrite.
  split; [| split].
  - destruct (generateReport_writes bundleStats opts name items entrypoints w
                Hname Hrun Hentry Hmkdir Hwrite) as [Hret Htrace].
    eexists _, _. split; [exact Hret |]. rewrite Htrace. reflexivity.
  - apply PathFacts.resolve_absolute.
  - intros Hnonempty Hrel Hend. split.
    + intros Hdir. by apply PathFacts.resolve_relative.
    + intros Hdir Hdir' Hcwd. by apply PathFacts.resolve_relative_dir.
Qed.

(** C7: once the pipeline has yielded an array, and unless the operating
    system refuses, [generateJSONReport] creates the directory
    [path.dirname(reportFilename)] recursively, writes
    [JSON.stringify(chartData)] to [reportFilename], replacing what the
    file held, and logs [reportFilename] as it was given; [bundleDir]
    appears in none of the three. *)
Theorem generateJSONReport_writes bundleStats opts name items w :
  let o := default Opts.empty opts in
  let json := JSON_stringify (JS.Arr items) in
  Opts.reportFilename o = Some name ->
  (getChartData (analyzerOptsOf o) bundleStats (Opts.bundleDir o) w).1
    = Return (JS.Arr items) ->
  refuses (SysMkdir (Path.dirname name)) = None ->
  refuses (SysWriteFile name) = None ->
  generateJSONReport bundleStats opts w =
    (Return tt,
     {| trace := trace w ++
          [MadeDir (Path.dirname name) true;
           WroteFile name json;
           Logged info
             (bold "Webpack Bundle Analyzer" +:+ " saved JSON report to " +:+ bold name)];
        files := <[Path.resolve process_cwd [name] := json]> (files w);
        currentChartData := currentChartData w;
        clients := clients w |})
  /\ files (generateJSONReport bundleStats opts w).2 !! Path.resolve process_cwd [name]
     = Some json.
Proof.
  intros o json Hname Hrun Hmkdir Hwrite. pipeline_yields Hrun.
  assert (generateJSONReport bundleStats opts w =
    (Return tt,
     {| trace := trace w ++
          [MadeDir (Path.dirname name) true;
           WroteFile name json;
           Logged info
             (bold "Webpack Bundle Analyzer" +:+ " saved JSON report to " +:+ bold name)];
        files := <[Path.resolve process_cwd [name] := json]> (files w);
        currentChartData := currentChartData w;
        clients := clients w |})) as Heq.
  { unfold generateJSONReport, bind. fold o. rewrite Hrun, Hname.
    cbn [ret JS.truthy negb validateString].
    unfold fs_mkdir, fs_writeFile, syscall, logger, emit, bind.
    rewrite Hmkdir, Hwrite. cbn. rewrite <- !app_assoc. reflexivity. }
  split; [exact Heq |].
  rewrite Heq. cbn. apply lookup_insert_eq.
Qed.

End Generators.

Lemma generateReport_path_witness :
  Path.resolve "/home/me/app" ["/out"; "reports/report.html"]
  = Path.join ["/out"; "reports/report.html"]
  /\ Path.resolve "/home/me/app" ["/out"; "/srv/www/report.html"]
     = "/" +:+ Path.normalizeString "/srv/www/report.html" false.
Proof.
  split.
  - apply (proj2 (proj2 (@generateReport_path (mock (inr (JS.Arr mainChart))) mainStats
             (Some (reportOpts (Some "/out") "reports/report.html"))
             "reports/report.html" mainChart [JS.Str "main"] emptyWorld
             eq_refl eq_refl eq_refl eq_refl eq_refl)));
      [discriminate | reflexivity | reflexivity | reflexivity].
  - apply (proj1 (proj2 (@generateReport_path (mock (inr (JS.Arr mainChart))) mainStats
             (Some (reportOpts (Some "/out") "/srv/www/report.html"))
             "/srv/www/report.html" mainChart [JS.Str "main"] emptyWorld
             eq_refl eq_refl eq_refl eq_refl eq_refl))).
    reflexivity.
Defined.

(** The path is not always [path.join] of the two: with [bundleDir]
    [/out] and the absolute [reportFilename] [/tmp/report.html] the report
    is written at [/tmp/report.html], which is not under [bundleDir]. *)
Lemma generateReport_path_counterexample :
  (@generateReport (mock (inr (JS.Arr mainChart))) mainStats
     (Some (reportOpts (Some "/out") "/tmp/report.html")) emptyWorld).1 = Return tt
  /\ trace (@generateReport (mock (inr (JS.Arr mainChart))) mainStats
              (Some (reportOpts (Some "/out") "/tmp/report.html")) emptyWorld).2 =
       [MadeDir "/tmp" true;
        WroteFile "/tmp/report.html" "<html>static</html>";
        Logged info "Webpack Bundle Analyzer saved report to /tmp/report.html"]
  /\ Path.join ["/out"; "/tmp/report.html"] = "/out/tmp/report.html"
  /\ "/tmp/report.html" <> Path.join ["/out"; "/tmp/report.html"].
Proof. repeat split. discriminate. Qed.

Lemma generateJSONReport_writes_witness :
  trace (@generateJSONReport (mock (inr (JS.Arr mainChart))) mainStats
           (Some (reportOpts (Some "/out") "reports/stats.json")) emptyWorld).2 =
    [MadeDir "reports" true;
     WroteFile "reports/stats.json" "[...]";
     Logged info "Webpack Bundle Analyzer saved JSON report to reports/stats.json"]
  /\ files (@generateJSONReport (mock (inr (JS.Arr mainChart))) mainStats
              (Some (reportOpts (Some "/out") "reports/stats.json")) emptyWorld).2
       !! "/home/me/app/reports/stats.json" = Some "[...]".
Proof.
  destruct (@generateJSONReport_writes (mock (inr (JS.Arr mainChart))) mainStats
              (Some (reportOpts (Some "/out") "reports/stats.json"))
              "reports/stats.json" mainChart emptyWorld
              eq_refl eq_refl eq_refl eq_refl) as [Hrun Hfile].
  split.
  - rewrite Hrun. reflexivity.
  - exact Hfile.
Defined.

(** ** The entrypoint extractor *)

(** When the callback of [map] never throws, the result is the list of
    the [name] properties. *)
Lemma map_name_inr (records names : list JS.Value) :
  map_name records = inr names ->
  names = map (fun r => JS.field r "name") records.
Proof.
  revert names. induction records as [| r records IH]; intros names Hmap.
  - by injection Hmap as <-.
  - cbn [map_name] in Hmap.
    destruct (JS.get r "name") as [e | name] eqn:Hget; [discriminate |].
    destruct (map_name records) as [e | rest]; [discriminate |].
    injection Hmap as <-. cbn [map]. rewrite <- (IH rest eq_refl).
    destruct r; cbn in Hget; try discriminate; by injection Hget as <-.
Qed.

Lemma map_name_records (records : list JS.Value) :
  Forall (fun r => JS.nullish r = false) records ->
  map_name records = inr (map (fun r => JS.field r "name") records).
Proof.
  induction 1 as [| r records Hr _ IH]; [done |].
  cbn [map_name map]. rewrite IH. by destruct r.
Qed.

Lemma getEntrypoints_mapping_eq props mapping :
  JS.assoc "entrypoints" props = Some (JS.Obj mapping) ->
  getEntrypoints (JS.Obj props) = map_name (map snd mapping).
Proof.
  intros Hfield. unfold getEntrypoints. cbn. rewrite Hfield. cbn.
  by destruct (map_name (map snd mapping)).
Qed.

(** C8 (amended): [getEntrypoints] returns the empty array for
    [undefined], for [null] and for stats without an [entrypoints]
    property; for stats whose [entrypoints] is a mapping none of whose
    values is [null] or [undefined] it returns, in the order of the
    mapping, the [name] of each value.  On all of these it returns rather
    than throws, and as a function of its argument alone it has no effect. *)
Theorem getEntrypoints_spec :
  getEntrypoints JS.Undefined = inr []
  /\ getEntrypoints JS.Null = inr []
  /\ getEntrypoints (JS.Obj []) = inr []
  /\ (forall props,
        JS.assoc "entrypoints" props = None -> getEntrypoints (JS.Obj props) = inr [])
  /\ (forall props mapping,
        JS.assoc "entrypoints" props = Some (JS.Obj mapping) ->
        Forall (fun r => JS.nullish r = false) (map snd mapping) ->
        getEntrypoints (JS.Obj props) =
          inr (map (fun entry => JS.field entry.2 "name") mapping))
  /\ getEntrypoints
       (JS.Obj [("entrypoints",
                 JS.Obj [("a", JS.Obj [("name", JS.Str "x")]);
                         ("b", JS.Obj [("name", JS.Str "y")])])])
     = inr [JS.Str "x"; JS.Str "y"].
Proof.
  repeat split.
  - intros props Hnone. unfold getEntrypoints. cbn. by rewrite Hnone.
  - intros props mapping Hfield Hrecords.
    rewrite (getEntrypoints_mapping_eq _ _ Hfield), (map_name_records _ Hrecords).
    by rewrite map_map.
Qed.

Lemma getEntrypoints_spec_witness :
  getEntrypoints (JS.Obj [("assets", JS.Arr [])]) = inr []
  /\ getEntrypoints
       (JS.Obj [("assets", JS.Arr []);
                ("entrypoints", JS.Obj [("main", JS.Obj [("name", JS.Str "main")]);
                                        ("admin", JS.Obj [("chunks", JS.Arr [])])])])
     = inr [JS.Str "main"; JS.Undefined].
Proof.
  destruct getEntrypoints_spec as (_ & _ & _ & Hlacks & Hmapping & _).
  split.
  - apply Hlacks. reflexivity.
  - apply (Hmapping
             [("assets", JS.Arr []);
              ("entrypoints", JS.Obj [("main", JS.Obj [("name", JS.Str "main")]);
                                      ("admin", JS.Obj [("chunks", JS.Arr [])])])]
             [("main", JS.Obj [("name", JS.Str "main")]);
              ("admin", JS.Obj [("chunks", JS.Arr [])])]).
    + reflexivity.
    + repeat constructor.
Defined.

(** The function does have a failure mode: an entrypoint whose record is
    [null] makes the callback of [map] read a property of [null], and the
    call throws. *)
Lemma getEntrypoints_counterexample :
  getEntrypoints brokenStats
  = inl (JS.TypeError "Cannot read properties of null (reading 'name')").
Proof. reflexivity. Qed.

(** C10: when the [entrypoints] property of the stats is a non-empty
    mapping, the array that [getEntrypoints] returns has one item for each
    entry of the mapping, and the item of a record without a [name]
    property is [undefined]; on a mapping of records the array is
    returned. *)
Theorem getEntrypoints_length props mapping :
  JS.assoc "entrypoints" props = Some (JS.Obj mapping) ->
  mapping <> [] ->
  (forall names,
     getEntrypoints (JS.Obj props) = inr names ->
     length names = length mapping
     /\ forall i key fields,
          mapping !! i = Some (key, JS.Obj fields) ->
          JS.assoc "name" fields = None ->
          names !! i = Some JS.Undefined)
  /\ (Forall (fun entry => exists fields, entry.2 = JS.Obj fields) mapping ->
      exists names, getEntrypoints (JS.Obj props) = inr names).
Proof.
  intros Hfield _. rewrite (getEntrypoints_mapping_eq _ _ Hfield). split.
  - intros names Hnames. apply map_name_inr in Hnames as ->.
    rewrite map_map. split; [by rewrite length_map |].
    intros i key fields Hi Hname.
    rewrite list_lookup_fmap, Hi. cbn. by rewrite Hname.
  - intros Hrecords. eexists. apply map_name_records.
    apply Forall_map. eapply Forall_impl; [exact Hrecords |].
    by intros entry [fields ->].
Qed.

Lemma getEntrypoints_length_witness :
  exists names,
    getEntrypoints
      (JS.Obj [("entrypoints", JS.Obj [("main", JS.Obj [("name", JS.Str "main")]);
                                       ("admin", JS.Obj [("chunks", JS.Arr [])])])])
    = inr names
    /\ length names = 2
    /\ names !! 1 = Some JS.Undefined.
Proof.
  destruct (getEntrypoints_length
              [("entrypoints", JS.Obj [("main", JS.Obj [("name", JS.Str "main")]);
                                       ("admin", JS.Obj [("chunks", JS.Arr [])])])]
              [("main", JS.Obj [("name", JS.Str "main")]);
               ("admin", JS.Obj [("chunks", JS.Arr [])])]
              eq_refl ltac:(discriminate)) as [Hpartial Htotal].
  destruct Htotal as [names Hnames].
  { repeat constructor; eexists; reflexivity. }
  destruct (Hpartial names Hnames) as [Hlength Hitem].
  exists names. split; [exact Hnames |]. split; [exact Hlength |].
  apply (Hitem 1 "admin" [("chunks", JS.Arr [])]); reflexivity.
Defined.

(** ** Default sizes *)

(** C9: default-size resolution returns [compressionAlgorithm] when
    [defaultSizes] is the string gzip or the string brotli, and
    [defaultSizes] itself otherwise. *)
Theorem resolveDefaultSizes_spec (defaultSizes compressionAlgorithm : JS.Value) :
  (defaultSizes = JS.Str "gzip" \/ defaultSizes = JS.Str "brotli" ->
   resolveDefaultSizes defaultSizes compressionAlgorithm = compressionAlgorithm)
  /\ (defaultSizes <> JS.Str "gzip" -> defaultSizes <> JS.Str "brotli" ->
      resolveDefaultSizes defaultSizes compressionAlgorithm = defaultSizes)
  /\ resolveDefaultSizes (JS.Str "gzip") (JS.Str "brotli") = JS.Str "brotli"
  /\ resolveDefaultSizes (JS.Str "parsed") (JS.Str "brotli") = JS.Str "parsed"
  /\ resolveDefaultSizes (JS.Str "brotli") JS.Undefined = JS.Undefined.
Proof.
  split; [| split; [| done]].
  - intros [-> | ->]; reflexivity.
  - intros Hg Hb. unfold resolveDefaultSizes.
    destruct defaultSizes as [| | b | x | s | items | props]; try reflexivity.
    cbn [JS.includes existsb].
    destruct (String.eqb_spec s "gzip") as [-> | _]; [congruence |].
    destruct (String.eqb_spec s "brotli") as [-> | _]; [congruence |].
    reflexivity.
Qed.

Lemma resolveDefaultSizes_spec_witness :
  resolveDefaultSizes (JS.Str "brotli") (JS.Str "gzip") = JS.Str "gzip"
  /\ resolveDefaultSizes (JS.Str "stat") (JS.Str "gzip") = JS.Str "stat".
Proof.
  split.
  - apply (proj1 (resolveDefaultSizes_spec (JS.Str "brotli") (JS.Str "gzip"))).
    right. reflexivity.
  - apply (proj1 (proj2 (resolveDefaultSizes_spec (JS.Str "stat") (JS.Str "gzip"))));
      discriminate.
Defined.

(** ** More about the pipeline *)

Lemma sentTo_app client es es' :
  sentTo client (es ++ es') = sentTo client es ++ sentTo client es'.
Proof.
  induction es as [| e es IH]; [done |].
  destruct e; cbn; try exact IH.
  destruct (Nat.eqb client0 client); cbn; by rewrite IH.
Qed.

Section PipelineFacts.

Context {collaborators : Collaborators}.

(** X1: the result of [getChartData], when there is one, is [null] or what
    the analyzer returned; a truthy result is an array that the analyzer
    returned, and then the call has left no trace, not even in the log.
    There is a result whenever the analyzer returns or raises an
    [Error]. *)
Theorem getChartData_result analyzerOpts bundleStats bundleDir w :
  (forall v,
     (getChartData analyzerOpts bundleStats bundleDir w).1 = Return v ->
     (v = JS.Null \/ getViewerData bundleStats bundleDir analyzerOpts = inr v)
     /\ (JS.truthy v = true ->
         JS.isArray v = true
         /\ getViewerData bundleStats bundleDir analyzerOpts = inr v
         /\ (getChartData analyzerOpts bundleStats bundleDir w).2 = w))
  /\ ((forall thrown,
         getViewerData bundleStats bundleDir analyzerOpts <> inl (JS.ThrownValue thrown)) ->
      exists v, (getChartData analyzerOpts bundleStats bundleDir w).1 = Return v).
Proof.
  split.
  - intros v Hv. destruct (getChartData_returned _ _ _ _ _ Hv) as [-> Hrun]. split.
    + unfold yielded.
      destruct (getViewerData bundleStats bundleDir analyzerOpts) as [err | v];
        [by left |].
      destruct (JS.truthy v && negb (JS.isArray v)); [by left | by right].
    + intros Htruthy.
      destruct (yielded_truthy _ _ _ Htruthy) as (Harray & Hlog & Hanalyzed).
      repeat split; try done. rewrite Hrun. cbn [snd]. rewrite Hlog. apply after_nil.
  - intros Herror. rewrite getChartData_run. cbn [fst].
    destruct (handlerThrows analyzerOpts bundleStats bundleDir) as [e |] eqn:Hthrows;
      [| by eexists].
    destruct (handlerThrows_value _ _ _ _ Hthrows) as (thrown & Hraise & _).
    by destruct (Herror thrown).
Qed.

(** X2: all that [getChartData] does to the world is log: at most two
    entries, none of them at info level.  Once it has logged, what it
    returns, if it returns, is [null]; and when it throws it has logged at
    most one entry, and none at debug level. *)
Theorem getChartData_effects analyzerOpts bundleStats bundleDir w :
  exists logs,
    (getChartData analyzerOpts bundleStats bundleDir w).2 = after w logs
    /\ forallb isLogged logs = true
    /\ length logs <= 2
    /\ loggedAt info logs = []
    /\ (forall entry, In entry logs -> logLevel entry <> Some info)
    /\ (logs <> [] ->
        forall v,
          (getChartData analyzerOpts bundleStats bundleDir w).1 = Return v -> v = JS.Null)
    /\ (forall e,
          (getChartData analyzerOpts bundleStats bundleDir w).1 = Throw e ->
          length logs <= 1
          /\ forall entry, In entry logs -> logLevel entry <> Some debug).
Proof.
  rewrite getChartData_run. eexists. split; [reflexivity |].
  split; [apply pipelineLog_logged |].
  unfold pipelineLog, yielded, handlerThrows. cbn [fst].
  destruct (getViewerData bundleStats bundleDir analyzerOpts) as [err | v].
  - destruct (interpolate err) as [e | text].
    { cbn. repeat split; try lia; try done. }
    destruct (JS.stack err) as [e | [| | | | stack | |]]; cbn;
      (repeat split; try lia; try done);
      try (intros entry [<- | [<- | []]]; done);
      try (intros entry [<- | []]; done);
      try (intros _ v [= <-]; done).
  - destruct (JS.truthy v && negb (JS.isArray v)); cbn;
      (repeat split; try lia; try done);
      try (intros entry [<- | []]; done);
      try (intros _ v' [= <-]; done).
Qed.

End PipelineFacts.

(** ** More about the server *)

Section ServerFacts.

Context {collaborators : Collaborators}.

(** When the handler throws, the pipeline has yielded nothing. *)
Lemma handlerThrows_yielded analyzerOpts bundleStats bundleDir e :
  handlerThrows analyzerOpts bundleStats bundleDir = Some e ->
  yielded analyzerOpts bundleStats bundleDir = JS.Null.
Proof.
  intros Hthrows. destruct (handlerThrows_value _ _ _ _ Hthrows) as (thrown & Hraise & _).
  unfold yielded. by rewrite Hraise.
Qed.

(** A run of [updateChartData], in closed form. *)
Lemma updateChartData_run server bundleStats w :
  updateChartData server bundleStats w =
    (match handlerThrows (sv_analyzerOpts server) bundleStats (sv_bundleDir server) with
     | Some e => Throw e
     | None => Return tt
     end,
     let v := yielded (sv_analyzerOpts server) bundleStats (sv_bundleDir server) in
     if JS.truthy v then
       {| trace := trace w ++ Assigned v :: broadcastOf (chartDataUpdated v) (clients w);
          files := files w;
          currentChartData := v;
          clients := clients w |}
     else after w (pipelineLog (sv_analyzerOpts server) bundleStats (sv_bundleDir server))).
Proof.
  unfold updateChartData, bind. rewrite getChartData_run. cbv zeta.
  destruct (handlerThrows (sv_analyzerOpts server) bundleStats (sv_bundleDir server))
    as [e |] eqn:Hthrows.
  { by rewrite (handlerThrows_yielded _ _ _ _ Hthrows). }
  destruct (JS.truthy (yielded (sv_analyzerOpts server) bundleStats (sv_bundleDir server)))
    eqn:Htruthy; cbn [negb]; [| done].
  destruct (yielded_truthy _ _ _ Htruthy) as (_ & -> & _). rewrite after_nil.
  unfold assignChartData, wss_clients. cbn [clients].
  rewrite forEach_send. unfold after. cbn. by rewrite <- app_assoc.
Qed.

(** X3: when the analyzer returns a falsy value, [updateChartData] is
    silent: it returns and the world is exactly as before, without a log
    entry. *)
Theorem updateChartData_falsy_silent server bundleStats v w :
  getViewerData bundleStats (sv_bundleDir server) (sv_analyzerOpts server) = inr v ->
  JS.truthy v = false ->
  updateChartData server bundleStats w = (Return tt, w).
Proof.
  intros Hanalyzed Hfalsy. rewrite updateChartData_run. cbv zeta.
  unfold yielded, pipelineLog, handlerThrows. rewrite Hanalyzed, Hfalsy. cbn [andb].
  rewrite Hfalsy. by rewrite after_nil.
Qed.

Lemma updateAll_cons server bundleStats updates w :
  updateAll server (bundleStats :: updates) w =
    ((updateChartData server bundleStats w).1
       :: (updateAll server updates (updateChartData server bundleStats w).2).1,
     (updateAll server updates (updateChartData server bundleStats w).2).2).
Proof.
  cbn [updateAll]. destruct (updateChartData server bundleStats w) as [outcome w1].
  cbn [fst snd]. by destruct (updateAll server updates w1).
Qed.

(** X4: any number of updates leaves the clients and the files as they
    are, and keeps the current chart data an array once it is one.  There
    is one outcome for each update; an update returns whenever the
    analyzer returns or raises an [Error] on it, and whatever an update
    throws has been thrown by the handler of the pipeline. *)
Theorem updateAll_invariant server updates w :
  let run := updateAll server updates w in
  length run.1 = length updates
  /\ ((forall bundleStats thrown,
         In bundleStats updates ->
         getViewerData bundleStats (sv_bundleDir server) (sv_analyzerOpts server)
           <> inl (JS.ThrownValue thrown)) ->
      Forall (fun outcome => outcome = Return tt) run.1)
  /\ Forall (fun outcome =>
               outcome = Return tt
               \/ exists bundleStats e,
                    In bundleStats updates
                    /\ outcome = Throw e
                    /\ handlerThrows (sv_analyzerOpts server) bundleStats
                         (sv_bundleDir server) = Some e)
       run.1
  /\ clients run.2 = clients w
  /\ files run.2 = files w
  /\ (JS.isArray (currentChartData w) = true ->
      JS.isArray (currentChartData run.2) = true).
Proof.
  revert w. induction updates as [| bundleStats updates IH]; intros w.
  { cbn. split; [done |]. split; [intros _; constructor |].
    split; [constructor | done]. }
  cbv zeta. rewrite updateAll_cons. cbn [fst snd length].
  destruct (IH (updateChartData server bundleStats w).2)
    as (Hlength & Hreturns & Houtcomes & Hclients & Hfiles & Harray).
  rewrite Hlength, Hclients, Hfiles. rewrite updateChartData_run in *.
  cbv zeta in *. cbn [fst snd] in *.
  split; [done |]. split; [| split].
  - intros Herror. constructor.
    + destruct (handlerThrows (sv_analyzerOpts server) bundleStats (sv_bundleDir server))
        as [e |] eqn:Hthrows; [| done].
      destruct (handlerThrows_value _ _ _ _ Hthrows) as (thrown & Hraise & _).
      destruct (Herror bundleStats thrown); [by left | done].
    + apply Hreturns. intros later thrown Hin. apply Herror. by right.
  - constructor.
    + destruct (handlerThrows (sv_analyzerOpts server) bundleStats (sv_bundleDir server))
        as [e |] eqn:Hthrows; [| by left].
      right. exists bundleStats, e. repeat split; [by left | done].
    + eapply Forall_impl; [exact Houtcomes |].
      intros outcome [-> | (later & e & Hin & -> & Hthrows)]; [by left |].
      right. exists later, e. repeat split; [by right | done].
  - destruct (JS.truthy (yielded (sv_analyzerOpts server) bundleStats
                           (sv_bundleDir server))) eqn:Htruthy;
      cbn in *; repeat split; try done.
    intros _. apply Harray. by destruct (yielded_truthy _ _ _ Htruthy).
Qed.

Lemma last_cons {A : Type} (x d : A) (l : list A) : List.last (x :: l) d = List.last l x.
Proof.
  revert x d. induction l as [| y l IH]; intros x d; [done |].
  change (List.last (x :: y :: l) d) with (List.last (y :: l) d). by rewrite !IH.
Qed.

(** X5: after a list of updates the current chart data is the last one
    accepted, or the old one when none was; an open client has been sent
    the frame of each accepted one, in order, and a client in another
    state nothing. *)
Theorem updateAll_frames server updates w :
  let run := updateAll server updates w in
  currentChartData run.2 = List.last (accepted server updates) (currentChartData w)
  /\ (List.NoDup (map WebSocket.id (clients w)) ->
      forall client, In client (clients w) ->
        sentTo (WebSocket.id client) (trace run.2) =
          sentTo (WebSocket.id client) (trace w) ++
          if WebSocket.isOpen (WebSocket.readyState client)
          then map chartDataUpdated (accepted server updates)
          else []).
Proof.
  revert w. induction updates as [| bundleStats updates IH]; intros w.
  - cbn. split; [done |]. intros _ client _.
    destruct (WebSocket.isOpen (WebSocket.readyState client)); by rewrite app_nil_r.
  - cbv zeta. rewrite updateAll_cons. cbn [snd].
    destruct (IH (updateChartData server bundleStats w).2) as [Hdata Hframes].
    rewrite Hdata. unfold accepted in *. cbn [map List.filter].
    rewrite updateChartData_run in *. cbv zeta in *.
    destruct (JS.truthy (yielded (sv_analyzerOpts server) bundleStats (sv_bundleDir server)))
      eqn:Htruthy; cbn [snd currentChartData clients trace after] in *.
    + split; [by rewrite last_cons |].
      intros Hdistinct client Hin. rewrite (Hframes Hdistinct client Hin).
      rewrite sentTo_app. cbn [sentTo].
      rewrite (sentTo_member _ _ _ Hdistinct Hin). unfold isOpenClient.
      destruct (WebSocket.isOpen (WebSocket.readyState client));
        by rewrite <- app_assoc.
    + split; [done |].
      intros Hdistinct client Hin. rewrite (Hframes Hdistinct client Hin).
      rewrite sentTo_app, (sentTo_logs _ _ (pipelineLog_logged _ _ _)).
      by rewrite app_nil_r.
Qed.

(** X6: the page served after an update shows the new chart data when the
    update was accepted and the old one otherwise, always with the
    entrypoints the server started with; serving it changes nothing, and
    every request other than [GET /] is delegated. *)
Theorem handleRequest_after_update server bundleStats w :
  let w' := (updateChartData server bundleStats w).2 in
  let v := yielded (sv_analyzerOpts server) bundleStats (sv_bundleDir server) in
  handleRequest server "GET" "/" w' =
    (Return (Page 200 "text/html"
               (viewerPage server (if JS.truthy v then v else currentChartData w))),
     w')
  /\ forall method url,
       method <> "GET" \/ url <> "/" ->
       handleRequest server method url w' = (Return Delegated, w').
Proof.
  cbv zeta. rewrite updateChartData_run. cbv zeta. split.
  - unfold handleRequest, bind, readChartData, viewerPage.
    rewrite !String.eqb_refl. cbn [andb].
    by destruct (JS.truthy (yielded (sv_analyzerOpts server) bundleStats
                              (sv_bundleDir server))).
  - intros method url Hother. unfold handleRequest.
    destruct (String.eqb_spec method "GET") as [-> | _],
             (String.eqb_spec url "/") as [-> | _]; cbn [andb]; try done.
    by destruct Hother.
Qed.

(** X7: when the pipeline yields an array, the entrypoints are extracted, the
    listener binds and [analyzerUrl] is given, [startServer] creates the
    static middleware and the server, listens, logs the banner with the
    URL of [analyzerUrl], opens that URL unless [openBrowser] is false,
    and only then creates the push channel; the server it returns serves
    the chart data of the pipeline. *)
Theorem startServer_success bundleStats opts items entrypoints analyzerUrl w :
  let o := default Opts.empty opts in
  let port := default 8888%Z (Opts.port o) in
  let host := default "127.0.0.1" (Opts.host o) in
  let url :=
    analyzerUrl {| listenPort := port; listenHost := host;
                   boundAddress := server_address port host |} in
  let server :=
    {| sv_analyzerOpts := analyzerOptsOf o;
       sv_bundleDir := Opts.bundleDir o;
       sv_entrypoints := entrypoints;
       sv_reportTitle := Opts.reportTitle o;
       sv_defaultSizes := JS.default (JS.Str "parsed") (Opts.defaultSizes o);
       sv_compressionAlgorithm := Opts.compressionAlgorithm o |} in
  (getChartData (analyzerOptsOf o) bundleStats (Opts.bundleDir o) w).1
    = Return (JS.Arr items) ->
  getEntrypoints bundleStats = inr entrypoints ->
  refuses (SysListen port host) = None ->
  Opts.analyzerUrl o = Some analyzerUrl ->
  let run := startServer bundleStats opts w in
  run.1 = Return (Some server)
  /\ trace run.2 =
       trace w ++
       [CreatedStatic (projectRoot +:+ "/public") true; CreatedServer;
        Listening port host;
        Logged info
          (bold "Webpack Bundle Analyzer" +:+ " is started at " +:+ bold url +:+ LF +:+
           "Use " +:+ bold "Ctrl+C" +:+ " to close it")]
       ++ (if default true (Opts.openBrowser o) then [OpenedBrowser url] else [])
       ++ [CreatedWebSocketServer]
  /\ currentChartData run.2 = JS.Arr items
  /\ clients run.2 = clients w
  /\ files run.2 = files w
  /\ (handleRequest server "GET" "/" run.2).1
     = Return (Page 200 "text/html" (viewerPage server (JS.Arr items))).
Proof.
  intros o port host url server Hrun Hentry Hlisten Hurl. pipeline_yields Hrun.
  cbv zeta. unfold startServer, bind. fold o port host.
  rewrite Hrun, Hentry, Hurl.
  cbn [lift ret JS.truthy negb]. unfold listen. rewrite Hlisten.
  unfold bindChartData, logger, open, emit, ret. cbn [trace files currentChartData clients].
  fold url.
  destruct (default true (Opts.openBrowser o)); cbn;
    (repeat split; try done); rewrite <- !app_assoc; reflexivity.
Qed.

End ServerFacts.

(** ** More about the report generators *)

(** With an absolute working directory [path.resolve] gives an absolute
    path. *)
Lemma resolveLoop_absolute (cwd : string) (pathsFromLast : list string) (acc : string) :
  Path.isAbsolute cwd = true ->
  (Path.resolveLoop (pathsFromLast ++ [cwd]) acc).2 = true.
Proof.
  intros Hcwd. revert acc.
  induction pathsFromLast as [| p rest IH]; intros acc; cbn [app Path.resolveLoop].
  - rewrite (PathFacts.nonempty_eqb _ (PathFacts.absolute_nonempty _ Hcwd)), Hcwd. done.
  - destruct (String.eqb p ""); [apply IH |].
    destruct (Path.isAbsolute p); [done | apply IH].
Qed.

Lemma resolve_isAbsolute (cwd : string) (paths : list string) :
  Path.isAbsolute cwd = true -> Path.isAbsolute (Path.resolve cwd paths) = true.
Proof.
  intros Hcwd. unfold Path.resolve.
  pose proof (resolveLoop_absolute cwd (rev paths) "" Hcwd) as Habs.
  destruct (Path.resolveLoop (rev paths ++ [cwd]) "") as [resolvedPath resolvedAbsolute].
  cbn in Habs. by rewrite Habs.
Qed.

Section GeneratorFacts.

Context {collaborators : Collaborators}.

(** A successful run of [generateReport], in closed form. *)
Lemma generateReport_success bundleStats opts name items entrypoints w :
  let o := default Opts.empty opts in
  let reportFilepath :=
    Path.resolve process_cwd [bundleDir_or_cwd (Opts.bundleDir o); name] in
  Opts.reportFilename o = Some name ->
  (getChartData (analyzerOptsOf o) bundleStats (Opts.bundleDir o) w).1
    = Return (JS.Arr items) ->
  getEntrypoints bundleStats = inr entrypoints ->
  refuses (SysMkdir (Path.dirname reportFilepath)) = None ->
  refuses (SysWriteFile reportFilepath) = None ->
  generateReport bundleStats opts w =
    (Return tt,
     {| trace :=
          trace w ++
          [MadeDir (Path.dirname reportFilepath) true;
           WroteFile reportFilepath (staticPage o (JS.Arr items) entrypoints);
           Logged info
             (bold "Webpack Bundle Analyzer" +:+ " saved report to " +:+
              bold reportFilepath)]
          ++ (if default true (Opts.openBrowser o)
              then [OpenedBrowser ("file://" +:+ reportFilepath)] else []);
        files :=
          <[Path.resolve process_cwd [reportFilepath] :=
              staticPage o (JS.Arr items) entrypoints]> (files w);
        currentChartData := currentChartData w;
        clients := clients w |}).
Proof.
  intros o reportFilepath Hname Hrun Hentry Hmkdir Hwrite. pipeline_yields Hrun.
  unfold generateReport, bind. fold o. rewrite Hrun, Hentry, Hname.
  cbn [lift ret JS.truthy negb validateString].
  fold reportFilepath. unfold fs_mkdir, fs_writeFile, syscall, bind.
  rewrite Hmkdir, Hwrite. unfold logger, open, emit, ret, staticPage.
  destruct (default true (Opts.openBrowser o)); cbn;
    rewrite <- !app_assoc; reflexivity.
Qed.

(** A successful run of [generateJSONReport], in closed form. *)
Lemma generateJSONReport_success bundleStats opts name items w :
  let o := default Opts.empty opts in
  Opts.reportFilename o = Some name ->
  (getChartData (analyzerOptsOf o) bundleStats (Opts.bundleDir o) w).1
    = Return (JS.Arr items) ->
  refuses (SysMkdir (Path.dirname name)) = None ->
  refuses (SysWriteFile name) = None ->
  generateJSONReport bundleStats opts w =
    (Return tt,
     {| trace := trace w ++
          [MadeDir (Path.dirname name) true;
           WroteFile name (JSON_stringify (JS.Arr items));
           Logged info
             (bold "Webpack Bundle Analyzer" +:+ " saved JSON report to " +:+ bold name)];
        files := <[Path.resolve process_cwd [name] := JSON_stringify (JS.Arr items)]> (files w);
        currentChartData := currentChartData w;
        clients := clients w |}).
Proof.
  intros o Hname Hrun Hmkdir Hwrite. pipeline_yields Hrun.
  unfold generateJSONReport, bind. fold o. rewrite Hrun, Hname.
  cbn [ret JS.truthy negb validateString].
  unfold fs_mkdir, fs_writeFile, syscall, logger, emit, bind.
  rewrite Hmkdir, Hwrite. cbn. rewrite <- !app_assoc. reflexivity.
Qed.

(** X8: when [getEntrypoints] throws on the stats, [startServer] and
    [generateReport] throw the same error, whatever the pipeline
    returned: all they have done by then is what the pipeline logged.
    What the pipeline itself throws, they throw in its place. *)
Theorem entrypoints_failure_propagates bundleStats opts e w :
  getEntrypoints bundleStats = inl e ->
  let o := default Opts.empty opts in
  let logged := (getChartData (analyzerOptsOf o) bundleStats (Opts.bundleDir o) w).2 in
  (forall v,
     (getChartData (analyzerOptsOf o) bundleStats (Opts.bundleDir o) w).1 = Return v ->
     startServer bundleStats opts w = (Throw e, logged)
     /\ generateReport bundleStats opts w = (Throw e, logged))
  /\ (forall e',
        (getChartData (analyzerOptsOf o) bundleStats (Opts.bundleDir o) w).1 = Throw e' ->
        startServer bundleStats opts w = (Throw e', logged)
        /\ generateReport bundleStats opts w = (Throw e', logged)).
Proof.
  intros Hentry o logged. unfold logged, startServer, generateReport, bind. fold o.
  destruct (getChartData (analyzerOptsOf o) bundleStats (Opts.bundleDir o) w)
    as [[v | e' | e'] w1]; cbn [fst snd]; split; intros x [= <-]; by rewrite ?Hentry.
Qed.

(** X9: when the pipeline yields a falsy value, [generateReport] returns
    without making a directory, writing a file or opening the browser,
    even without a [reportFilename] and on an operating system that would
    refuse: all it has done is what the pipeline logged. *)
Theorem generateReport_nothing_to_report bundleStats opts v entrypoints w :
  let o := default Opts.empty opts in
  (getChartData (analyzerOptsOf o) bundleStats (Opts.bundleDir o) w).1 = Return v ->
  JS.truthy v = false ->
  getEntrypoints bundleStats = inr entrypoints ->
  let run := generateReport bundleStats opts w in
  run.1 = Return tt
  /\ run.2 = (getChartData (analyzerOptsOf o) bundleStats (Opts.bundleDir o) w).2
  /\ files run.2 = files w
  /\ exists logs, trace run.2 = trace w ++ logs /\ forallb isLogged logs = true.
Proof.
  intros o Hrun Hfalsy Hentry.
  destruct (getChartData_returned _ _ _ _ _ Hrun) as [_ Hpipe].
  cbv zeta. unfold generateReport, bind. fold o.
  rewrite Hpipe, Hentry, Hfalsy. cbn.
  repeat split. eexists. split; [reflexivity | apply pipelineLog_logged].
Qed.

(** X10: when the pipeline yields a falsy value, [generateJSONReport] returns
    without making a directory or writing a file, whatever the stats and
    even without a [reportFilename]. *)
Theorem generateJSONReport_nothing_to_report bundleStats opts v w :
  let o := default Opts.empty opts in
  (getChartData (analyzerOptsOf o) bundleStats (Opts.bundleDir o) w).1 = Return v ->
  JS.truthy v = false ->
  let run := generateJSONReport bundleStats opts w in
  run.1 = Return tt
  /\ run.2 = (getChartData (analyzerOptsOf o) bundleStats (Opts.bundleDir o) w).2
  /\ files run.2 = files w
  /\ exists logs, trace run.2 = trace w ++ logs /\ forallb isLogged logs = true.
Proof.
  intros o Hrun Hfalsy.
  destruct (getChartData_returned _ _ _ _ _ Hrun) as [_ Hpipe].
  cbv zeta. unfold generateJSONReport, bind. fold o.
  rewrite Hpipe, Hfalsy. cbn.
  repeat split. eexists. split; [reflexivity | apply pipelineLog_logged].
Qed.

(** X11: a refusal of the operating system makes [generateReport] throw the
    error of the refusal.  When the directory is refused nothing has
    happened; when the file is refused the directory has been made; in
    both cases no file is written, nothing is logged and the browser is
    not opened. *)
Theorem generateReport_refused bundleStats opts name items entrypoints w :
  let o := default Opts.empty opts in
  let reportFilepath :=
    Path.resolve process_cwd [bundleDir_or_cwd (Opts.bundleDir o); name] in
  Opts.reportFilename o = Some name ->
  (getChartData (analyzerOptsOf o) bundleStats (Opts.bundleDir o) w).1
    = Return (JS.Arr items) ->
  getEntrypoints bundleStats = inr entrypoints ->
  (forall e,
     refuses (SysMkdir (Path.dirname reportFilepath)) = Some e ->
     generateReport bundleStats opts w = (Throw e, w))
  /\ (forall e,
        refuses (SysMkdir (Path.dirname reportFilepath)) = None ->
        refuses (SysWriteFile reportFilepath) = Some e ->
        generateReport bundleStats opts w =
          (Throw e, after w [MadeDir (Path.dirname reportFilepath) true])).
Proof.
  intros o reportFilepath Hname Hrun Hentry. pipeline_yields Hrun.
  split; intros e.
  - intros Hmkdir. unfold generateReport, bind. fold o. rewrite Hrun, Hentry, Hname.
    cbn [lift ret JS.truthy negb validateString]. fold reportFilepath.
    unfold fs_mkdir, syscall, bind. by rewrite Hmkdir.
  - intros Hmkdir Hwrite. unfold generateReport, bind. fold o.
    rewrite Hrun, Hentry, Hname.
    cbn [lift ret JS.truthy negb validateString]. fold reportFilepath.
    unfold fs_mkdir, fs_writeFile, syscall, bind. by rewrite Hmkdir, Hwrite.
Qed.

(** X12: a refusal of the operating system makes [generateJSONReport]
    throw the error of the refusal.  When the directory of [reportFilename]
    is refused nothing has happened; when the file is refused the
    directory has been made; in both cases no file is written and nothing
    is logged. *)
Theorem generateJSONReport_refused bundleStats opts name items w :
  let o := default Opts.empty opts in
  Opts.reportFilename o = Some name ->
  (getChartData (analyzerOptsOf o) bundleStats (Opts.bundleDir o) w).1
    = Return (JS.Arr items) ->
  (forall e,
     refuses (SysMkdir (Path.dirname name)) = Some e ->
     generateJSONReport bundleStats opts w = (Throw e, w))
  /\ (forall e,
        refuses (SysMkdir (Path.dirname name)) = None ->
        refuses (SysWriteFile name) = Some e ->
        generateJSONReport bundleStats opts w =
          (Throw e, after w [MadeDir (Path.dirname name) true])).
Proof.
  intros o Hname Hrun. pipeline_yields Hrun.
  split; intros e.
  - intros Hmkdir. unfold generateJSONReport, bind. fold o. rewrite Hrun, Hname.
    cbn [ret JS.truthy negb validateString].
    unfold fs_mkdir, syscall, bind. by rewrite Hmkdir.
  - intros Hmkdir Hwrite. unfold generateJSONReport, bind. fold o. rewrite Hrun, Hname.
    cbn [ret JS.truthy negb validateString].
    unfold fs_mkdir, fs_writeFile, syscall, bind. by rewrite Hmkdir, Hwrite.
Qed.

(** X13: without a [reportFilename], a generator that has chart data throws a
    [TypeError] before it touches the file system. *)
Theorem generators_need_reportFilename bundleStats opts items w :
  let o := default Opts.empty opts in
  Opts.reportFilename o = None ->
  (getChartData (analyzerOptsOf o) bundleStats (Opts.bundleDir o) w).1
    = Return (JS.Arr items) ->
  (exists e,
     generateJSONReport bundleStats opts w = (Throw e, w)
     /\ JS.err_name e = "TypeError")
  /\ (forall entrypoints,
        getEntrypoints bundleStats = inr entrypoints ->
        exists e,
          generateReport bundleStats opts w = (Throw e, w)
          /\ JS.err_name e = "TypeError").
Proof.
  intros o Hname Hrun. pipeline_yields Hrun. split.
  - eexists. unfold generateJSONReport, bind. fold o. rewrite Hrun, Hname. by cbn.
  - intros entrypoints Hentry. eexists. unfold generateReport, bind. fold o.
    rewrite Hrun, Hentry, Hname. by cbn.
Qed.

(** X14: two JSON reports written one after the other under the same
    [reportFilename] leave the JSON of the second in the file; every other
    file is as it was before the first. *)
Theorem generateJSONReport_twice stats1 stats2 opts1 opts2 name items1 items2 w :
  let o1 := default Opts.empty opts1 in
  let o2 := default Opts.empty opts2 in
  let w1 := (generateJSONReport stats1 opts1 w).2 in
  let w2 := (generateJSONReport stats2 opts2 w1).2 in
  Opts.reportFilename o1 = Some name ->
  Opts.reportFilename o2 = Some name ->
  (getChartData (analyzerOptsOf o1) stats1 (Opts.bundleDir o1) w).1
    = Return (JS.Arr items1) ->
  (getChartData (analyzerOptsOf o2) stats2 (Opts.bundleDir o2) w1).1
    = Return (JS.Arr items2) ->
  refuses (SysMkdir (Path.dirname name)) = None ->
  refuses (SysWriteFile name) = None ->
  files w2 !! Path.resolve process_cwd [name] = Some (JSON_stringify (JS.Arr items2))
  /\ (forall file,
        file <> Path.resolve process_cwd [name] -> files w2 !! file = files w !! file)
  /\ exists before,
       trace w2 =
         before ++
         [MadeDir (Path.dirname name) true;
          WroteFile name (JSON_stringify (JS.Arr items2));
          Logged info
            (bold "Webpack Bundle Analyzer" +:+ " saved JSON report to " +:+ bold name)].
Proof.
  intros o1 o2 w1 w2 Hname1 Hname2 Hrun1 Hrun2 Hmkdir Hwrite.
  pose proof (generateJSONReport_success stats1 opts1 name items1 w
                Hname1 Hrun1 Hmkdir Hwrite) as Hfirst.
  pose proof (generateJSONReport_success stats2 opts2 name items2 w1
                Hname2 Hrun2 Hmkdir Hwrite) as Hsecond.
  unfold w2. rewrite Hsecond. cbn [snd files trace].
  unfold w1. rewrite Hfirst. cbn [snd files trace].
  split; [apply lookup_insert_eq |]. split.
  - intros file Hother. by rewrite !lookup_insert_ne.
  - eexists. reflexivity.
Qed.

(** X15: two static reports written one after the other under the same
    [bundleDir] and [reportFilename] leave the page of the second in the
    file; every other file is as it was before the first. *)
Theorem generateReport_twice
    stats1 stats2 opts1 opts2 name items1 items2 entrypoints1 entrypoints2 w :
  let o1 := default Opts.empty opts1 in
  let o2 := default Opts.empty opts2 in
  let reportFilepath :=
    Path.resolve process_cwd [bundleDir_or_cwd (Opts.bundleDir o1); name] in
  let w1 := (generateReport stats1 opts1 w).2 in
  let w2 := (generateReport stats2 opts2 w1).2 in
  Opts.bundleDir o2 = Opts.bundleDir o1 ->
  Opts.reportFilename o1 = Some name ->
  Opts.reportFilename o2 = Some name ->
  (getChartData (analyzerOptsOf o1) stats1 (Opts.bundleDir o1) w).1
    = Return (JS.Arr items1) ->
  (getChartData (analyzerOptsOf o2) stats2 (Opts.bundleDir o2) w1).1
    = Return (JS.Arr items2) ->
  getEntrypoints stats1 = inr entrypoints1 ->
  getEntrypoints stats2 = inr entrypoints2 ->
  refuses (SysMkdir (Path.dirname reportFilepath)) = None ->
  refuses (SysWriteFile reportFilepath) = None ->
  files w2 !! Path.resolve process_cwd [reportFilepath]
    = Some (staticPage o2 (JS.Arr items2) entrypoints2)
  /\ (forall file,
        file <> Path.resolve process_cwd [reportFilepath] ->
        files w2 !! file = files w !! file).
Proof.
  intros o1 o2 reportFilepath w1 w2 Hdir Hname1 Hname2 Hrun1 Hrun2 Hentry1 Hentry2
    Hmkdir Hwrite.
  pose proof (generateReport_success stats1 opts1 name items1 entrypoints1 w
                Hname1 Hrun1 Hentry1 Hmkdir Hwrite) as Hfirst.
  assert (Path.resolve process_cwd [bundleDir_or_cwd (Opts.bundleDir o2); name]
          = reportFilepath) as Hsame by (by rewrite Hdir).
  pose proof (generateReport_success stats2 opts2 name items2 entrypoints2 w1
                Hname2 Hrun2 Hentry2) as Hsecond.
  cbv zeta in Hsecond. fold o2 in Hsecond. rewrite Hsame in Hsecond.
  specialize (Hsecond Hmkdir Hwrite).
  unfold w2. rewrite Hsecond. cbn [snd files].
  unfold w1. rewrite Hfirst. cbn [snd files].
  split; [apply lookup_insert_eq |].
  intros file Hother. by rewrite !lookup_insert_ne.
Qed.

(** X16: the path at which [generateReport] writes is absolute whenever the
    working directory is; the same path is the one that is logged and,
    unless [openBrowser] is false, opened as a [file://] URL, and the
    directory made is its [dirname]. *)
Theorem generateReport_reports_written_path bundleStats opts name items entrypoints w :
  let o := default Opts.empty opts in
  let reportFilepath :=
    Path.resolve process_cwd [bundleDir_or_cwd (Opts.bundleDir o); name] in
  let run := generateReport bundleStats opts w in
  Opts.reportFilename o = Some name ->
  (getChartData (analyzerOptsOf o) bundleStats (Opts.bundleDir o) w).1
    = Return (JS.Arr items) ->
  getEntrypoints bundleStats = inr entrypoints ->
  refuses (SysMkdir (Path.dirname reportFilepath)) = None ->
  refuses (SysWriteFile reportFilepath) = None ->
  Path.isAbsolute process_cwd = true ->
  Path.isAbsolute reportFilepath = true
  /\ (forall file data,
        In (WroteFile file data) (trace run.2) ->
        In (WroteFile file data) (trace w)
        \/ (file = reportFilepath /\ data = staticPage o (JS.Arr items) entrypoints))
  /\ In (WroteFile reportFilepath (staticPage o (JS.Arr items) entrypoints)) (trace run.2)
  /\ In (MadeDir (Path.dirname reportFilepath) true) (trace run.2)
  /\ loggedAt info (trace run.2) =
       loggedAt info (trace w) ++
       [bold "Webpack Bundle Analyzer" +:+ " saved report to " +:+ bold reportFilepath]
  /\ (In (OpenedBrowser ("file://" +:+ reportFilepath)) (trace run.2)
       \/ Opts.openBrowser o = Some false).
Proof.
  intros o reportFilepath run Hname Hrun Hentry Hmkdir Hwrite Hcwd.
  pose proof (generateReport_success bundleStats opts name items entrypoints w
                Hname Hrun Hentry Hmkdir Hwrite) as Hsuccess.
  unfold run. rewrite Hsuccess. cbn [snd trace]. fold o reportFilepath.
  split; [by apply resolve_isAbsolute |]. split; [| split; [| split; [| split]]].
  - intros file data Hin. apply in_app_or in Hin as [Hin | Hin]; [by left |].
    right. apply in_app_or in Hin as [Hin | Hin].
    + cbn in Hin. destruct Hin as [Hin | [Hin | [Hin | []]]]; try discriminate.
      by injection Hin as <- <-.
    + destruct (default true (Opts.openBrowser o)); cbn in Hin; [| done].
      by destruct Hin as [Hin | []].
  - apply in_or_app. right. cbn. tauto.
  - apply in_or_app. right. cbn. tauto.
  - rewrite !loggedAt_app.
    by destruct (default true (Opts.openBrowser o)).
  - destruct (Opts.openBrowser o) as [[|] |]; cbn; [left | by right | left];
      apply in_or_app; right; cbn; tauto.
Qed.

End GeneratorFacts.

(** ** What the generators leave alone *)

Lemma keepsServer_ret {A : Type} (a : A) : keepsServer (ret a).
Proof. by intros w. Qed.

Lemma keepsServer_throw {A : Type} (e : JS.Error) : keepsServer (@throw A e).
Proof. by intros w. Qed.

Lemma keepsServer_bind {A B : Type} (m : M A) (k : A -> M B) :
  keepsServer m -> (forall a, keepsServer (k a)) -> keepsServer (bind m k).
Proof.
  intros Hm Hk w. unfold bind. destruct (Hm w) as (Hdata & Hclients & Hsent).
  destruct (m w) as [[a | e | e] w1]; cbn in *; [| done | done].
  destruct (Hk a w1) as (Hdata' & Hclients' & Hsent').
  rewrite Hdata', Hclients'. repeat split; try done.
  intros client. by rewrite Hsent'.
Qed.

Lemma keepsServer_emit (e : Event) : isSent e = false -> keepsServer (emit e).
Proof.
  intros He w. cbn. repeat split. intros client. rewrite sentTo_app.
  destruct e; try discriminate; cbn; by rewrite app_nil_r.
Qed.

Lemma keepsServer_lift {A : Type} (r : JS.Error + A) : keepsServer (lift r).
Proof. destruct r; [apply keepsServer_throw | apply keepsServer_ret]. Qed.

Lemma keepsServer_if {A : Type} (b : bool) (m1 m2 : M A) :
  keepsServer m1 -> keepsServer m2 -> keepsServer (if b then m1 else m2).
Proof. by destruct b. Qed.

Create HintDb keeps.
#[local] Hint Resolve keepsServer_ret keepsServer_throw keepsServer_lift : keeps.
#[local] Hint Extern 1 (keepsServer (emit _)) =>
  (apply keepsServer_emit; reflexivity) : keeps.
#[local] Hint Extern 2 (keepsServer (bind _ _)) =>
  (apply keepsServer_bind; [| intros ?]) : keeps.
#[local] Hint Extern 2 (keepsServer (if _ then _ else _)) =>
  (apply keepsServer_if) : keeps.

Section Untouched.

Context {collaborators : Collaborators}.

Lemma keepsServer_syscall (c : SysCall) : keepsServer (syscall c).
Proof. unfold syscall. destruct (refuses c); auto with keeps. Qed.

Lemma keepsServer_writeFile (file data : string) : keepsServer (fs_writeFile file data).
Proof.
  unfold fs_writeFile. apply keepsServer_bind; [apply keepsServer_syscall |].
  intros _ w. cbn. repeat split. intros client. rewrite sentTo_app. cbn.
  by rewrite app_nil_r.
Qed.

Lemma keepsServer_getChartData analyzerOpts bundleStats bundleDir :
  keepsServer (getChartData analyzerOpts bundleStats bundleDir).
Proof.
  intros w. rewrite getChartData_run. cbn. repeat split.
  intros client. rewrite sentTo_app, (sentTo_logs _ _ (pipelineLog_logged _ _ _)).
  by rewrite app_nil_r.
Qed.

Lemma keepsServer_validateString (name : string) (p : option string) :
  keepsServer (validateString name p).
Proof. destruct p; cbn; auto with keeps. Qed.

#[local] Hint Resolve keepsServer_syscall keepsServer_writeFile
  keepsServer_getChartData keepsServer_validateString : keeps.

(** X17: however they end, by returning or by throwing, the two report
    generators leave the running server alone: its current chart data and
    its clients are as before, and no client is sent anything. *)
Theorem generators_keep_server bundleStats opts w :
  let html := (generateReport bundleStats opts w).2 in
  let json := (generateJSONReport bundleStats opts w).2 in
  (currentChartData html = currentChartData w
   /\ clients html = clients w
   /\ forall client, sentTo client (trace html) = sentTo client (trace w))
  /\ (currentChartData json = currentChartData w
      /\ clients json = clients w
      /\ forall client, sentTo client (trace json) = sentTo client (trace w)).
Proof.
  split.
  - assert (keepsServer (generateReport bundleStats opts)) as Hkeeps; [| apply Hkeeps].
    unfold generateReport, fs_mkdir, logger, open. auto 20 with keeps.
  - assert (keepsServer (generateJSONReport bundleStats opts)) as Hkeeps; [| apply Hkeeps].
    unfold generateJSONReport, fs_mkdir, logger. auto 20 with keeps.
Qed.

End Untouched.

(** ** More about the pure helpers *)

(** X18: the resolved default size is gzip or brotli only when it is the
    configured compression algorithm, and resolving it again changes
    nothing. *)
Theorem resolveDefaultSizes_compressed (defaultSizes compressionAlgorithm : JS.Value) :
  (JS.includes ["gzip"; "brotli"]
     (resolveDefaultSizes defaultSizes compressionAlgorithm) = true ->
   resolveDefaultSizes defaultSizes compressionAlgorithm = compressionAlgorithm)
  /\ resolveDefaultSizes (resolveDefaultSizes defaultSizes compressionAlgorithm)
       compressionAlgorithm
     = resolveDefaultSizes defaultSizes compressionAlgorithm.
Proof.
  unfold resolveDefaultSizes.
  destruct (JS.includes ["gzip"; "brotli"] defaultSizes) eqn:Hsizes.
  - split; [done |].
    by destruct (JS.includes ["gzip"; "brotli"] compressionAlgorithm).
  - rewrite Hsizes. split; [discriminate | done].
Qed.

Lemma map_name_throws (records : list JS.Value) :
  (exists e, map_name records = inl e) <-> Exists (fun r => JS.nullish r = true) records.
Proof.
  induction records as [| r records IH]; cbn [map_name].
  - split; [by intros [e He] | by inversion 1].
  - rewrite Exists_cons, <- IH.
    destruct (JS.nullish r) eqn:Hnullish.
    + destruct (get_of_nullish r "name" Hnullish) as [e ->].
      split; [by left | by exists e].
    + rewrite (get_of_value r "name" Hnullish).
      destruct (map_name records) as [e | names].
      * split; [right | ]; by exists e.
      * split; [by intros [e He] | by intros [Hnull | [e He]]].
Qed.

Lemma map_name_TypeError (records : list JS.Value) (e : JS.Error) :
  map_name records = inl e -> JS.err_name e = "TypeError".
Proof.
  induction records as [| r records IH]; [discriminate |]. cbn [map_name].
  destruct (JS.get r "name") as [e' | name] eqn:Hget.
  - intros [= <-]. destruct r; cbn in Hget; try discriminate; by injection Hget as <-.
  - destruct (map_name records) as [e' | names]; [| discriminate].
    intros [= <-]. by apply IH.
Qed.

(** X19: [getEntrypoints] throws on stats with a mapping of entrypoints exactly
    when a value of the mapping is [null] or [undefined]; whatever the
    stats, all it ever throws is a [TypeError]. *)
Theorem getEntrypoints_throws_iff :
  (forall props mapping,
     JS.assoc "entrypoints" props = Some (JS.Obj mapping) ->
     (exists e, getEntrypoints (JS.Obj props) = inl e)
     <-> Exists (fun r => JS.nullish r = true) (map snd mapping))
  /\ (forall bundleStats e,
        getEntrypoints bundleStats = inl e -> JS.err_name e = "TypeError").
Proof.
  split.
  - intros props mapping Hfield.
    rewrite (getEntrypoints_mapping_eq _ _ Hfield). apply map_name_throws.
  - intros bundleStats e. unfold getEntrypoints.
    destruct (JS.nullish bundleStats) eqn:Hnullish; [discriminate |].
    destruct (JS.get bundleStats "entrypoints") as [e' | entrypoints] eqn:Hget.
    { by destruct bundleStats. }
    destruct (JS.truthy entrypoints) eqn:Htruthy; cbn [negb]; [| discriminate].
    destruct (JS.values entrypoints) as [e' | records] eqn:Hvalues.
    { by destruct entrypoints. }
    apply map_name_TypeError.
Qed.

(** ** The further properties on concrete runs *)

Lemma getChartData_result_witness :
  (@getChartData (mock (inr (JS.Arr mainChart))) someOpts mainStats None busyWorld).2
  = busyWorld.
Proof.
  destruct (proj1 (@getChartData_result (mock (inr (JS.Arr mainChart))) someOpts mainStats
                     None busyWorld) (JS.Arr mainChart) eq_refl) as [_ Htruthy].
  exact (proj2 (proj2 (Htruthy eq_refl))).
Defined.

Lemma getChartData_effects_witness :
  length (trace (@getChartData (thrower JS.Null) someOpts mainStats None emptyWorld).2) <= 1.
Proof.
  destruct (@getChartData_effects (thrower JS.Null) someOpts mainStats None emptyWorld)
    as (logs & Hworld & _ & _ & _ & _ & _ & Hthrow).
  rewrite Hworld. exact (proj1 (Hthrow _ eq_refl)).
Defined.

Lemma updateChartData_falsy_silent_witness :
  @updateChartData (mock (inr (JS.int 0))) someServer mainStats busyWorld
  = (Return tt, busyWorld).
Proof.
  apply (@updateChartData_falsy_silent (mock (inr (JS.int 0))) someServer mainStats
           (JS.int 0) busyWorld); reflexivity.
Defined.

Lemma updateAll_invariant_witness :
  JS.isArray
    (currentChartData
       (@updateAll echo someServer [JS.Arr mainChart; mainStats; JS.int 0] busyWorld).2)
  = true.
Proof.
  destruct (@updateAll_invariant echo someServer [JS.Arr mainChart; mainStats; JS.int 0]
              busyWorld) as (_ & _ & _ & _ & _ & Harray).
  apply Harray. reflexivity.
Defined.

Lemma updateAll_frames_witness :
  sentTo 3
    (trace (@updateAll echo someServer
              [JS.Arr mainChart; mainStats; JS.int 0; JS.Arr []] busyWorld).2)
  = ["{update: [...]}"; "{update: []}"]
  /\ sentTo 2
       (trace (@updateAll echo someServer
                 [JS.Arr mainChart; mainStats; JS.int 0; JS.Arr []] busyWorld).2)
     = [].
Proof.
  destruct (@updateAll_frames echo someServer
              [JS.Arr mainChart; mainStats; JS.int 0; JS.Arr []] busyWorld)
    as [_ Hframes].
  assert (List.NoDup (map WebSocket.id (clients busyWorld))) as Hdistinct.
  { repeat constructor; cbn; intuition discriminate. }
  split.
  - apply (Hframes Hdistinct (WebSocket.mkClient 3 WebSocket.OPEN)). cbn. tauto.
  - apply (Hframes Hdistinct (WebSocket.mkClient 2 WebSocket.CLOSING)). cbn. tauto.
Defined.

Lemma handleRequest_after_update_witness :
  (@handleRequest echo someServer "POST" "/"
     (@updateChartData echo someServer (JS.Arr mainChart) busyWorld).2).1
  = Return Delegated.
Proof.
  rewrite (proj2 (@handleRequest_after_update echo someServer (JS.Arr mainChart) busyWorld)
             "POST" "/").
  - reflexivity.
  - left. discriminate.
Defined.

Lemma startServer_success_witness :
  currentChartData
    (@startServer (mock (inr (JS.Arr mainChart))) mainStats (Some serverOpts) emptyWorld).2
  = JS.Arr mainChart.
Proof.
  apply (@startServer_success (mock (inr (JS.Arr mainChart))) mainStats (Some serverOpts)
           mainChart [JS.Str "main"] (fun bound => "http://" +:+ listenHost bound)
           emptyWorld); reflexivity.
Defined.

Lemma entrypoints_failure_propagates_witness :
  @generateReport (mock (inr (JS.Arr mainChart))) brokenStats
    (Some (reportOpts None "report.html")) emptyWorld
  = (Throw (JS.TypeError "Cannot read properties of null (reading 'name')"), emptyWorld).
Proof.
  apply (proj1 (@entrypoints_failure_propagates (mock (inr (JS.Arr mainChart))) brokenStats
                  (Some (reportOpts None "report.html"))
                  (JS.TypeError "Cannot read properties of null (reading 'name')")
                  emptyWorld eq_refl) (JS.Arr mainChart) eq_refl).
Defined.

Lemma generateReport_nothing_to_report_witness :
  (@generateReport (mockOn noMkdir (inl boom)) mainStats (Some namelessOpts) emptyWorld).1
  = Return tt.
Proof.
  apply (@generateReport_nothing_to_report (mockOn noMkdir (inl boom)) mainStats
           (Some namelessOpts) JS.Null [JS.Str "main"] emptyWorld); reflexivity.
Defined.

Lemma generateJSONReport_nothing_to_report_witness :
  (@generateJSONReport (mockOn noMkdir (inl boom)) brokenStats (Some namelessOpts)
     emptyWorld).1
  = Return tt.
Proof.
  apply (@generateJSONReport_nothing_to_report (mockOn noMkdir (inl boom)) brokenStats
           (Some namelessOpts) JS.Null emptyWorld); reflexivity.
Defined.

Lemma generateReport_refused_witness :
  @generateReport (mockOn noMkdir (inr (JS.Arr mainChart))) mainStats
    (Some (reportOpts (Some "/out") "report.html")) emptyWorld
  = (Throw EACCES, emptyWorld)
  /\ @generateReport (mockOn noWrite (inr (JS.Arr mainChart))) mainStats
       (Some (reportOpts (Some "/out") "report.html")) emptyWorld
     = (Throw EACCES, after emptyWorld [MadeDir "/out" true]).
Proof.
  split.
  - apply (proj1 (@generateReport_refused (mockOn noMkdir (inr (JS.Arr mainChart)))
             mainStats (Some (reportOpts (Some "/out") "report.html")) "report.html"
             mainChart [JS.Str "main"] emptyWorld eq_refl eq_refl eq_refl)).
    reflexivity.
  - apply (proj2 (@generateReport_refused (mockOn noWrite (inr (JS.Arr mainChart)))
             mainStats (Some (reportOpts (Some "/out") "report.html")) "report.html"
             mainChart [JS.Str "main"] emptyWorld eq_refl eq_refl eq_refl));
      reflexivity.
Defined.

Lemma generateJSONReport_refused_witness :
  @generateJSONReport (mockOn noMkdir (inr (JS.Arr mainChart))) mainStats
    (Some (reportOpts (Some "/out") "reports/stats.json")) emptyWorld
  = (Throw EACCES, emptyWorld)
  /\ @generateJSONReport (mockOn noWrite (inr (JS.Arr mainChart))) mainStats
       (Some (reportOpts (Some "/out") "reports/stats.json")) emptyWorld
     = (Throw EACCES, after emptyWorld [MadeDir "reports" true]).
Proof.
  split.
  - apply (proj1 (@generateJSONReport_refused (mockOn noMkdir (inr (JS.Arr mainChart)))
             mainStats (Some (reportOpts (Some "/out") "reports/stats.json"))
             "reports/stats.json" mainChart emptyWorld eq_refl eq_refl)).
    reflexivity.
  - apply (proj2 (@generateJSONReport_refused (mockOn noWrite (inr (JS.Arr mainChart)))
             mainStats (Some (reportOpts (Some "/out") "reports/stats.json"))
             "reports/stats.json" mainChart emptyWorld eq_refl eq_refl));
      reflexivity.
Defined.

Lemma generators_need_reportFilename_witness :
  exists e,
    @generateReport (mock (inr (JS.Arr mainChart))) mainStats (Some namelessOpts) emptyWorld
    = (Throw e, emptyWorld)
    /\ JS.err_name e = "TypeError".
Proof.
  apply (proj2 (@generators_need_reportFilename (mock (inr (JS.Arr mainChart))) mainStats
                  (Some namelessOpts) mainChart emptyWorld eq_refl eq_refl)
           [JS.Str "main"]).
  reflexivity.
Defined.

Lemma generateJSONReport_twice_witness :
  files
    (@generateJSONReport echo (JS.Arr [])
       (Some (reportOpts None "stats.json"))
       (@generateJSONReport echo (JS.Arr mainChart)
          (Some (reportOpts (Some "/out") "stats.json")) emptyWorld).2).2
    !! "/home/me/app/stats.json"
  = Some "[]".
Proof.
  apply (@generateJSONReport_twice echo (JS.Arr mainChart) (JS.Arr [])
           (Some (reportOpts (Some "/out") "stats.json"))
           (Some (reportOpts None "stats.json")) "stats.json" mainChart [] emptyWorld);
    reflexivity.
Defined.

Lemma generateReport_twice_witness :
  files
    (@generateReport echo (JS.Arr otherChart)
       (Some (reportOpts (Some "/out") "report.html"))
       (@generateReport echo (JS.Arr mainChart)
          (Some (reportOpts (Some "/out") "report.html")) emptyWorld).2).2
    !! "/out/report.html"
  = Some (@staticPage echo (reportOpts (Some "/out") "report.html") (JS.Arr otherChart) []).
Proof.
  apply (@generateReport_twice echo (JS.Arr mainChart) (JS.Arr otherChart)
           (Some (reportOpts (Some "/out") "report.html"))
           (Some (reportOpts (Some "/out") "report.html"))
           "report.html" mainChart otherChart [] [] emptyWorld);
    reflexivity.
Defined.

Lemma generateReport_reports_written_path_witness :
  Path.isAbsolute (Path.resolve "/home/me/app" ["dist"; "report.html"]) = true.
Proof.
  apply (@generateReport_reports_written_path (mock (inr (JS.Arr mainChart))) mainStats
           (Some (reportOpts (Some "dist") "report.html")) "report.html" mainChart
           [JS.Str "main"] emptyWorld); reflexivity.
Defined.

Lemma resolveDefaultSizes_compressed_witness :
  resolveDefaultSizes (JS.Str "gzip") (JS.Str "brotli") = JS.Str "brotli".
Proof.
  apply (proj1 (resolveDefaultSizes_compressed (JS.Str "gzip") (JS.Str "brotli"))).
  reflexivity.
Defined.

Lemma getEntrypoints_throws_iff_witness :
  exists e, getEntrypoints brokenStats = inl e.
Proof.
  apply (proj1 getEntrypoints_throws_iff
           [("entrypoints", JS.Obj [("main", JS.Null)])] [("main", JS.Null)] eq_refl).
  apply Exists_cons_hd. reflexivity.
Defined.
